(** * The add-user form: submission handler and result rendering

    A shallow embedding of [api/templates/addUserForm.js].  The script is a
    server-rendered template; the constants the server substitutes into it
    (paths, field names, error identifiers) and the objects other scripts and
    the browser provide (the settings registry, the cookie reader, the
    location, the numeric conversion of text) are parameters of the model. *)

From Stdlib Require Import ZArith Lia Ascii String.
From stdpp Require Import gmap strings list pretty.

Local Open Scope Z_scope.

(** ** The fragment of JavaScript numbers the handler computes with *)

(** Numbers are the integers (exact in the range the handler uses them) and
    [NaN], which is what arithmetic on [undefined] produces. *)
Inductive JsNumber : Type :=
  | JNaN
  | JInt (z : Z).

(** [ToNumber] of a boolean operand. *)
Definition ToNumber_bool (b : bool) : JsNumber :=
  JInt (if b then 1 else 0).

(** [ToNumber] of a property read: a missing property reads as [undefined],
    whose numeric value is [NaN]. *)
Definition ToNumber_property (o : option Z) : JsNumber :=
  match o with
  | Some v => JInt v
  | None => JNaN
  end.

(** The [*] operator.  A product with [NaN] is [NaN]. *)
Definition js_mul (a b : JsNumber) : JsNumber :=
  match a, b with
  | JInt x, JInt y => JInt (x * y)
  | _, _ => JNaN
  end.

(** [ToInt32]: [NaN] becomes [0]; an integer is reduced modulo [2^32] and read
    back as a signed 32-bit value. *)
Definition ToInt32 (n : JsNumber) : Z :=
  match n with
  | JNaN => 0
  | JInt z =>
      let int32bit := z mod 2 ^ 32 in
      if 2 ^ 31 <=? int32bit then int32bit - 2 ^ 32 else int32bit
  end.

(** The [|] operator: both operands go through [ToInt32]. *)
Definition js_bitor (a b : JsNumber) : JsNumber :=
  JInt (Z.lor (ToInt32 a) (ToInt32 b)).

(** ** Settings controls and the mask loop *)

(** One child of the settings box: its first element child is a checkbox with
    a [name] and a [checked] state. *)
Record Control : Type := mkControl {
  name : string;
  checked : bool
}.

Section SettingsMask.

(** The registry [settingsValues]: setting name to bit value. *)
Variable settingsValues : gmap string Z.

(** The body of the [for ... of] loop:
    [settingsValue |= settingsValues[name] * checked]. *)
Definition settingsValue_step (settingsValue : JsNumber) (child : Control)
  : JsNumber :=
  js_bitor settingsValue
    (js_mul (ToNumber_property (settingsValues !! name child))
            (ToNumber_bool (checked child))).

(** [let settingsValue = 0] followed by the loop over the children. *)
Definition computeSettingsValue (children : list Control) : JsNumber :=
  fold_left settingsValue_step children (JInt 0).

(** What one pass of the loop ORs into [settingsValue]. *)
Definition contribution (child : Control) : Z :=
  ToInt32 (js_mul (ToNumber_property (settingsValues !! name child))
                  (ToNumber_bool (checked child))).

(** The bit value a control stands for: present only when the control is
    enabled and its name is registered. *)
Definition enabled_bit (c : Control) : option Z :=
  if checked c then settingsValues !! name c else None.

Definition enabled_bits (children : list Control) : list Z :=
  omap enabled_bit children.

Definition registered_bits (children : list Control) : list Z :=
  omap (λ c, settingsValues !! name c) children.

Definition registered (c : Control) : bool :=
  bool_decide (is_Some (settingsValues !! name c)).

End SettingsMask.

(** Bitwise OR of a list of integers. *)
Definition lor_all (l : list Z) : Z := foldr Z.lor 0 l.

(** The JavaScript expression [0 | v1 | ... | vn]. *)
Definition js_or_all (l : list Z) : JsNumber :=
  fold_left (λ acc v, js_bitor acc (JInt v)) l (JInt 0).

(** Bitwise OR of every value of the registry. *)
Definition registry_or (settingsValues : gmap string Z) : Z :=
  map_fold (λ _ v acc, Z.lor v acc) 0 settingsValues.

(** The values on which [ToInt32] is the identity. *)
Definition int32 (z : Z) : Prop := - 2 ^ 31 <= z < 2 ^ 31.

Definition int32_registry (settingsValues : gmap string Z) : Prop :=
  ∀ n v, settingsValues !! n = Some v → int32 v.

(** ** Values read from a decoded JSON response *)

Inductive JsValue : Type :=
  | JUndefined
  | JNull
  | JBool (b : bool)
  | JNumber (n : JsNumber)
  | JString (s : string).

(** Truthiness, as tested by [if (success)]. *)
Definition ToBoolean (v : JsValue) : bool :=
  match v with
  | JUndefined | JNull => false
  | JBool b => b
  | JNumber JNaN => false
  | JNumber (JInt z) => negb (z =? 0)
  | JString s => negb (String.eqb s EmptyString)
  end.

(** [Number::toString]: an integer prints as its decimal digits.  That is
    JavaScript's text for the integers below [10^21] in magnitude only; from
    [10^21] on JavaScript switches to exponent notation, which is not
    modelled. *)
Definition Number_toString (n : JsNumber) : string :=
  match n with
  | JNaN => "NaN"
  | JInt z => pretty z
  end.

(** [ToString], applied by [+] to a non-string operand of a concatenation. *)
Definition ToString (v : JsValue) : string :=
  match v with
  | JUndefined => "undefined"
  | JNull => "null"
  | JBool b => if b then "true" else "false"
  | JNumber n => Number_toString n
  | JString s => s
  end.

(** [v === "lit"]: only a string equals a string literal. *)
Definition strict_equals_string (v : JsValue) (lit : string) : bool :=
  match v with
  | JString s => String.eqb s lit
  | _ => false
  end.

(** The window global [lastUsername] is [null] or a string. *)
Definition value_of_lastUsername (u : option string) : JsValue :=
  match u with
  | Some s => JString s
  | None => JNull
  end.

(** ** Object literals and [JSON.stringify] *)

(** Evaluating an object literal defines its properties in source order; a
    repeated key keeps its first position and takes the later value.  This is
    the order in which JavaScript lists the properties whose names are
    neither array indices (listed first, in numeric order) nor [__proto__]
    (which sets the prototype and defines no property); for those two kinds
    of name the list below is not the object's. *)
Fixpoint define_property (k : string) (v : JsValue)
    (o : list (string * JsValue)) : list (string * JsValue) :=
  match o with
  | [] => [(k, v)]
  | (k', v') :: o' =>
      if String.eqb k' k then (k', v) :: o'
      else (k', v') :: define_property k v o'
  end.

Definition object_literal (props : list (string * JsValue))
  : list (string * JsValue) :=
  fold_left (λ o kv, define_property kv.1 kv.2 o) props [].

Definition double_quote : string := String "034"%char EmptyString.
Definition backslash : string := String "092"%char EmptyString.

Definition hex_digit (n : N) : ascii :=
  match n with
  | 0%N => "0" | 1%N => "1" | 2%N => "2" | 3%N => "3" | 4%N => "4"
  | 5%N => "5" | 6%N => "6" | 7%N => "7" | 8%N => "8" | 9%N => "9"
  | 10%N => "a" | 11%N => "b" | 12%N => "c" | 13%N => "d" | 14%N => "e"
  | _ => "f"
  end%char.

(** One character of [QuoteJSONString]. *)
Definition json_escape (c : ascii) : string :=
  let n := N_of_ascii c in
  if (n =? 8)%N then backslash +:+ "b"
  else if (n =? 9)%N then backslash +:+ "t"
  else if (n =? 10)%N then backslash +:+ "n"
  else if (n =? 12)%N then backslash +:+ "f"
  else if (n =? 13)%N then backslash +:+ "r"
  else if (n =? 34)%N then backslash +:+ double_quote
  else if (n =? 92)%N then backslash +:+ backslash
  else if (n <? 32)%N then
    backslash +:+ "u00"
      +:+ String (hex_digit (n / 16)) (String (hex_digit (n mod 16)) EmptyString)
  else String c EmptyString.

Fixpoint json_escape_all (s : string) : string :=
  match s with
  | EmptyString => EmptyString
  | String c s' => json_escape c +:+ json_escape_all s'
  end.

Definition json_quote (s : string) : string :=
  double_quote +:+ json_escape_all s +:+ double_quote.

(** Serialization of a property value; [None] for [undefined], whose
    property is left out of the object.  An integer is printed in full, which
    is [JSON.stringify]'s text below [10^21] in magnitude; numbers with a
    fraction have no value in [JsNumber]. *)
Definition json_value (v : JsValue) : option string :=
  match v with
  | JUndefined => None
  | JNull => Some "null"
  | JBool b => Some (if b then "true" else "false")
  | JNumber JNaN => Some "null"
  | JNumber (JInt z) => Some (pretty z)
  | JString s => Some (json_quote s)
  end.

Definition json_member (kv : string * JsValue) : option string :=
  match json_value kv.2 with
  | Some s => Some (json_quote kv.1 +:+ ":" +:+ s)
  | None => None
  end.

Fixpoint join_comma (l : list string) : string :=
  match l with
  | [] => EmptyString
  | [s] => s
  | s :: l' => s +:+ "," +:+ join_comma l'
  end.

(** [JSON.stringify] of an object whose property values are scalars. *)
Definition JSON_stringify (o : list (string * JsValue)) : string :=
  "{" +:+ join_comma (omap json_member o) +:+ "}".

(** ** The template's constants and the browser environment *)

(** What the server substitutes into the script when it renders it. *)
Record Template : Type := mkTemplate {
  url_register : string;
  url_add_user : string;
  FIELD_CSRF_TOKEN_HEADER : string;
  FIELD_CSRF_TOKEN : string;
  FIELD_USERNAME : string;
  FIELD_PERMISSION_GROUP : string;
  FIELD_SETTINGS : string;
  AlreadyExistsError_identifier : string;
  UsernameTooLong_identifier : string;
  UsernameTooShort_identifier : string;
  CannotBeNamedAnonymous_identifier : string;
  UsernameInvalidCharacters_identifier : string
}.

(** What the browser and the page's other scripts provide. *)
Record Browser : Type := mkBrowser {
  location_protocol : string;
  location_host : string;
  Number : string → JsNumber;
  getCookie : string → JsValue;
  settingsValues : gmap string Z
}.

(** The decoded response handed to [addUserSuccess]: [data.success],
    [data.reason] and the data field holding the slot token. *)
Record Response : Type := mkResponse {
  success : JsValue;
  reason : JsValue;
  slot : JsValue
}.

(** The form controls as they stand when a submit event is dispatched. *)
Record Form : Type := mkForm {
  username_value : string;
  pgroup_value : string;
  settings_children : list Control
}.

Record Request : Type := mkRequest {
  url : string;
  method : string;
  headers : list (string * JsValue);
  body : string
}.

(** ** The page state the script reads and writes *)

(** What the script does to the outside, in the order it does it. *)
Inductive Effect : Type :=
  | SetMessageText (t : string)          (* addUserMessageBoxText.textContent = t *)
  | SetMessageBoxDisplay (d : string)    (* addUserMessageBox.style.display = d *)
  | SetLinkElmDisplay (d : string)       (* addUserMessageBoxLinkElm.style.display = d *)
  | PreventDefault                       (* event.preventDefault() *)
  | ConsoleLog (n : JsNumber)            (* console.log(n) *)
  | Fetch (r : Request)                  (* fetch(url, options) *)
  | ClipboardWriteText (t : string).     (* navigator.clipboard.writeText(t) *)

Record Page : Type := mkPage {
  lastUsername : option string;          (* window.lastUsername, null or a string *)
  addUserMessageBoxLink : string;        (* window.addUserMessageBoxLink *)
  messageText : string;                  (* addUserMessageBoxText.textContent *)
  messageBoxDisplay : string;            (* addUserMessageBox.style.display *)
  linkElmDisplay : string;               (* addUserMessageBoxLinkElm.style.display *)
  clipboard : string;                    (* the system clipboard *)
  journal : list Effect                  (* the effects so far, oldest first *)
}.

(** A small state monad over the page. *)
Definition M (A : Type) : Type := Page → A * Page.

Definition ret {A} (a : A) : M A := λ p, (a, p).

Definition bind {A B} (m : M A) (k : A → M B) : M B :=
  λ p, let '(a, p') := m p in k a p'.

Definition exec {A} (m : M A) (p : Page) : Page := (m p).2.

Declare Scope js_scope.
Delimit Scope js_scope with js.
Notation "'let*' x := m 'in' k" :=
  (bind m (λ x, k)) (at level 10, x name, m at level 100, k at level 200)
  : js_scope.
Notation "m >> k" :=
  (bind m (λ _, k)) (at level 100, k at level 200, right associativity)
  : js_scope.
Local Open Scope js_scope.

Definition get_lastUsername : M (option string) :=
  λ p, (lastUsername p, p).

Definition get_addUserMessageBoxLink : M string :=
  λ p, (addUserMessageBoxLink p, p).

Definition set_lastUsername (u : option string) : M unit :=
  λ p, (tt, mkPage u (addUserMessageBoxLink p) (messageText p)
              (messageBoxDisplay p) (linkElmDisplay p) (clipboard p)
              (journal p)).

Definition set_addUserMessageBoxLink (l : string) : M unit :=
  λ p, (tt, mkPage (lastUsername p) l (messageText p)
              (messageBoxDisplay p) (linkElmDisplay p) (clipboard p)
              (journal p)).

Definition set_messageText (t : string) : M unit :=
  λ p, (tt, mkPage (lastUsername p) (addUserMessageBoxLink p) t
              (messageBoxDisplay p) (linkElmDisplay p) (clipboard p)
              (journal p ++ [SetMessageText t])).

Definition set_messageBoxDisplay (d : string) : M unit :=
  λ p, (tt, mkPage (lastUsername p) (addUserMessageBoxLink p) (messageText p)
              d (linkElmDisplay p) (clipboard p)
              (journal p ++ [SetMessageBoxDisplay d])).

Definition set_linkElmDisplay (d : string) : M unit :=
  λ p, (tt, mkPage (lastUsername p) (addUserMessageBoxLink p) (messageText p)
              (messageBoxDisplay p) d (clipboard p)
              (journal p ++ [SetLinkElmDisplay d])).

Definition clipboard_writeText (t : string) : M unit :=
  λ p, (tt, mkPage (lastUsername p) (addUserMessageBoxLink p) (messageText p)
              (messageBoxDisplay p) (linkElmDisplay p) t
              (journal p ++ [ClipboardWriteText t])).

Definition emit (e : Effect) : M unit :=
  λ p, (tt, mkPage (lastUsername p) (addUserMessageBoxLink p) (messageText p)
              (messageBoxDisplay p) (linkElmDisplay p) (clipboard p)
              (journal p ++ [e])).

Definition preventDefault : M unit := emit PreventDefault.
Definition console_log (n : JsNumber) : M unit := emit (ConsoleLog n).
Definition fetch (r : Request) : M unit := emit (Fetch r).

(** ** The script *)

Section Script.

Variable tpl : Template.
Variable env : Browser.

(** The two top-level assignments: [window.lastUsername = null] and
    [window.addUserMessageBoxLink] set to the empty string. *)
Definition script_load : M unit :=
  set_lastUsername None >>
  set_addUserMessageBoxLink EmptyString.

Definition copyAddUserMessageLink : M unit :=
  let* link := get_addUserMessageBoxLink in
  clipboard_writeText link.

(** The [switch (data.reason)] of the failure branch: the cases are tried
    in order with [===]. *)
Definition failure_message (r : JsValue) : string :=
  if strict_equals_string r (AlreadyExistsError_identifier tpl) then
    "Nutzername wird bereits verwendet."
  else if strict_equals_string r (UsernameTooLong_identifier tpl) then
    "Nutzername muss kürzer sein."
  else if strict_equals_string r (UsernameTooShort_identifier tpl) then
    "Nutzername muss länger sein."
  else if strict_equals_string r (CannotBeNamedAnonymous_identifier tpl) then
    "Dein Nutzername kann nicht 'Anonymous' sein."
  else if strict_equals_string r (UsernameInvalidCharacters_identifier tpl) then
    "Nutzername muss aus den Zeichen a-z, A-Z, 0-9, _ und - bestehen."
  else
    "Konnte nicht erstellt werden.".

(** The literal that follows the host in the link: the rendered
    registration path and the query key. *)
Definition register_literal : string := url_register tpl +:+ "?user_slot=".

Definition addUserSuccess (data : Response) : M unit :=
  (if ToBoolean (success data) then
     let* u := get_lastUsername in
     set_messageText (ToString (value_of_lastUsername u) +:+ " was added.") >>
     set_linkElmDisplay EmptyString >>
     set_addUserMessageBoxLink
       ((("https://" +:+ location_host env) +:+ register_literal)
          +:+ ToString (slot data))
   else
     set_messageText (failure_message (reason data))) >>
  set_messageBoxDisplay EmptyString.

(** The request of the [fetch] call, for the username and mask at hand. *)
Definition add_user_request (u : option string) (pgroup : string)
    (settingsValue : JsNumber) : Request :=
  {| url := url_add_user tpl;
     headers := object_literal
       [("Accept", JString "application/json");
        ("Content-Type", JString "application/json");
        (FIELD_CSRF_TOKEN_HEADER tpl, getCookie env (FIELD_CSRF_TOKEN tpl))];
     method := "POST";
     body := JSON_stringify (object_literal
       [(FIELD_USERNAME tpl, value_of_lastUsername u);
        (FIELD_PERMISSION_GROUP tpl, JNumber (Number env pgroup));
        (FIELD_SETTINGS tpl, JNumber settingsValue)]) |}.

(** The submit listener of the form. *)
Definition addUserButton_submit (form : Form) : M unit :=
  set_messageText "..." >>
  preventDefault >>
  set_lastUsername (Some (username_value form)) >>
  let settingsValue :=
    computeSettingsValue (settingsValues env) (settings_children form) in
  console_log settingsValue >>
  let* u := get_lastUsername in
  fetch (add_user_request u (pgroup_value form) settingsValue).

(** What happens on the page after the script has loaded: a submit, a
    decoded response reaching [addUserSuccess], or a click on the copy
    link. *)
Inductive Event : Type :=
  | Submit (form : Form)
  | Respond (data : Response)
  | CopyLink.

Definition handle (ev : Event) : M unit :=
  match ev with
  | Submit form => addUserButton_submit form
  | Respond data => addUserSuccess data
  | CopyLink => copyAddUserMessageLink
  end.

Fixpoint run (evs : list Event) : M unit :=
  match evs with
  | [] => ret tt
  | ev :: evs' => handle ev >> run evs'
  end.

End Script.

(** The five reason identifiers the switch knows, in the order of its
    cases. *)
Definition known_reasons (tpl : Template) : list string :=
  [AlreadyExistsError_identifier tpl;
   UsernameTooLong_identifier tpl;
   UsernameTooShort_identifier tpl;
   CannotBeNamedAnonymous_identifier tpl;
   UsernameInvalidCharacters_identifier tpl].

(** The property names of the request body, in the order of the literal. *)
Definition body_keys (tpl : Template) : list string :=
  [FIELD_USERNAME tpl; FIELD_PERMISSION_GROUP tpl; FIELD_SETTINGS tpl].

Definition is_submit (ev : Event) : bool :=
  match ev with Submit _ => true | _ => false end.

Definition is_success (ev : Event) : bool :=
  match ev with Respond data => ToBoolean (success data) | _ => false end.

(** An element is shown unless its inline style hides it. *)
Definition shown (display : string) : bool :=
  negb (String.eqb display "none").

(** The one-character placeholder U+2026, as its three UTF-8 bytes. *)
Definition horizontal_ellipsis : string :=
  String "226" (String "128" (String "166" EmptyString)).

(** Single quotes stand for double quotes in the text of expected JSON. *)
Fixpoint dq (s : string) : string :=
  match s with
  | EmptyString => EmptyString
  | String c s' =>
      String (if Ascii.eqb c "'" then "034" else c)%char (dq s')
  end.

(** ** A concrete page, for the scenarios *)

Definition demo_template : Template :=
  {| url_register := "/register";
     url_add_user := "/api/add_user";
     FIELD_CSRF_TOKEN_HEADER := "X-CSRF-TOKEN";
     FIELD_CSRF_TOKEN := "csrf_token";
     FIELD_USERNAME := "username";
     FIELD_PERMISSION_GROUP := "permission_group";
     FIELD_SETTINGS := "settings";
     AlreadyExistsError_identifier := "AlreadyExists";
     UsernameTooLong_identifier := "UsernameTooLong";
     UsernameTooShort_identifier := "UsernameTooShort";
     CannotBeNamedAnonymous_identifier := "ReservedName";
     UsernameInvalidCharacters_identifier := "InvalidCharacters" |}.

(** Value of a string of decimal digits; [None] when another character
    occurs. *)
Fixpoint decimal_digits (acc : Z) (s : string) : option Z :=
  match s with
  | EmptyString => Some acc
  | String c s' =>
      let n := Z.of_N (N_of_ascii c) in
      if (48 <=? n) && (n <=? 57) then decimal_digits (10 * acc + (n - 48)) s'
      else None
  end.

(** A stand-in for the browser's conversion in the scenarios.  It agrees
    with [Number] on the empty text, on short texts of decimal digits and on
    the non-numeric word the scenarios feed it; signs, surrounding spaces,
    fractions, exponents and radix prefixes are not covered. *)
Definition demo_Number (s : string) : JsNumber :=
  match s with
  | EmptyString => JInt 0
  | _ => match decimal_digits 0 s with
         | Some z => JInt z
         | None => JNaN
         end
  end.

Definition demo_registry : gmap string Z :=
  <["create_members" := 1]> (<["view_members" := 2]> (<["edit_members" := 4]> ∅)).

Definition demo_browser : Browser :=
  {| location_protocol := "http:";
     location_host := "panel.example.org";
     Number := demo_Number;
     getCookie := λ _, JString "token";
     settingsValues := demo_registry |}.

Definition demo_form : Form :=
  {| username_value := "alice";
     pgroup_value := "2";
     settings_children :=
       [mkControl "create_members" true;
        mkControl "view_members" false;
        mkControl "edit_members" true;
        mkControl "unknown_setting" true] |}.

(** The page as rendered, before the script runs: the result panel and the
    copy link are hidden. *)
Definition demo_page : Page :=
  {| lastUsername := None;
     addUserMessageBoxLink := "stale";
     messageText := EmptyString;
     messageBoxDisplay := "none";
     linkElmDisplay := "none";
     clipboard := "earlier clipboard text";
     journal := [] |}.

Definition demo_success : Response :=
  {| success := JBool true; reason := JUndefined; slot := JString "abc123" |}.

Definition demo_failure : Response :=
  {| success := JBool false;
     reason := JString "UsernameTooLong";
     slot := JUndefined |}.

(** ** Reading runs and journals *)

Definition is_copy (ev : Event) : bool :=
  match ev with CopyLink => true | _ => false end.

Definition is_respond (ev : Event) : bool :=
  match ev with Respond _ => true | _ => false end.

(** The forms of the submits of a run, in order. *)
Definition submitted (evs : list Event) : list Form :=
  omap (λ ev, match ev with Submit form => Some form | _ => None end) evs.

(** The requests of a journal, in order. *)
Definition fetches (j : list Effect) : list Request :=
  omap (λ e, match e with Fetch r => Some r | _ => None end) j.

(** The texts written to the clipboard, in order. *)
Definition clipboard_writes (j : list Effect) : list string :=
  omap (λ e, match e with ClipboardWriteText t => Some t | _ => None end) j.

(** The values written to the copy link's display, in order. *)
Definition linkElm_writes (j : list Effect) : list string :=
  omap (λ e, match e with SetLinkElmDisplay d => Some d | _ => None end) j.

(** The request a submit of [form] sends. *)
Definition request_of_form (tpl : Template) (env : Browser) (form : Form)
  : Request :=
  add_user_request tpl env (Some (username_value form)) (pgroup_value form)
    (computeSettingsValue (settingsValues env) (settings_children form)).

(** ** Reading a JSON string literal back *)

Definition unhex (c : ascii) : option N :=
  let n := N_of_ascii c in
  if ((48 <=? n) && (n <=? 57))%N then Some (n - 48)%N
  else if ((97 <=? n) && (n <=? 102))%N then Some (n - 87)%N
  else None.

Definition prepend (c : ascii) (r : option (string * string))
  : option (string * string) :=
  match r with
  | Some (t, rest) => Some (String c t, rest)
  | None => None
  end.

(** Reads the contents of a string literal up to its closing quote, undoing
    the escapes; gives the contents and what follows the quote.  A raw control
    character, an unknown escape or a missing closing quote is refused. *)
Fixpoint read_json_string (s : string) : option (string * string) :=
  match s with
  | EmptyString => None
  | String c s1 =>
      if Ascii.eqb c "034" then Some (EmptyString, s1)
      else if Ascii.eqb c "092" then
        match s1 with
        | EmptyString => None
        | String e s2 =>
            if Ascii.eqb e "b" then prepend "008" (read_json_string s2)
            else if Ascii.eqb e "t" then prepend "009" (read_json_string s2)
            else if Ascii.eqb e "n" then prepend "010" (read_json_string s2)
            else if Ascii.eqb e "f" then prepend "012" (read_json_string s2)
            else if Ascii.eqb e "r" then prepend "013" (read_json_string s2)
            else if Ascii.eqb e "034" then prepend "034" (read_json_string s2)
            else if Ascii.eqb e "092" then prepend "092" (read_json_string s2)
            else if Ascii.eqb e "u" then
              match s2 with
              | String a (String b (String h (String l s3))) =>
                  match unhex a, unhex b, unhex h, unhex l with
                  | Some 0%N, Some 0%N, Some x, Some y =>
                      prepend (ascii_of_N (16 * x + y))
                        (read_json_string s3)
                  | _, _, _, _ => None
                  end
              | _ => None
              end
            else None
        end
      else if (N_of_ascii c <? 32)%N then None
      else prepend c (read_json_string s1)
  end%char.

(** ** The pull-request check of the auto-merge workflow *)

Module AutoMerge.

(** One entry of the pull request's file list. *)
Record ChangedFile : Type := mkChangedFile {
  filename : string
}.

(** The pull request of the event payload, with the files the API lists for
    it. *)
Record PullRequest : Type := mkPullRequest {
  base_ref : string;
  user_login : string;
  files : list ChangedFile
}.

(** [s.startsWith(pre)]. *)
Fixpoint startsWith (s pre : string) {struct pre} : bool :=
  match pre with
  | EmptyString => true
  | String c pre' =>
      match s with
      | EmptyString => false
      | String d s' => Ascii.eqb d c && startsWith s' pre'
      end
  end.

(** [files.some(file => file.filename.startsWith('.github/'))]. *)
Definition modifiesGithubDir (fs : list ChangedFile) : bool :=
  existsb (λ file, startsWith (filename file) ".github/") fs.

(** The output [should_merge] the script sets. *)
Definition should_merge (fs : list ChangedFile) : string :=
  if modifiesGithubDir fs then "false" else "true".

Inductive Outcome : Type :=
  | Passed
  | Failed.

Section Expressions.

(** The [==] of the workflow's expression language on two strings. *)
Variable expr_eq : string → string → bool.

(** The [if:] of the second step, whose command is [exit 1]. *)
Definition exit_step_runs (pr : PullRequest) (output : string) : bool :=
  expr_eq output "false"
  || negb (expr_eq (base_ref pr) "dev"
           && expr_eq (user_login pr) "LeanderKafemann").

(** The job: without a pull request in the payload the script's
    [pr.number] throws and the first step fails; otherwise the job fails
    exactly when the second step runs. *)
Definition job (payload_pull_request : option PullRequest) : Outcome :=
  match payload_pull_request with
  | None => Failed
  | Some pr =>
      if exit_step_runs pr (should_merge (files pr)) then Failed else Passed
  end.

End Expressions.

(** Equality of strings up to the case of ASCII letters. *)
Definition ascii_upper (c : ascii) : ascii :=
  let n := N_of_ascii c in
  if ((97 <=? n) && (n <=? 122))%N then ascii_of_N (n - 32) else c.

Fixpoint eq_ignore_case (a b : string) : bool :=
  match a, b with
  | EmptyString, EmptyString => true
  | String x a', String y b' =>
      Ascii.eqb (ascii_upper x) (ascii_upper y) && eq_ignore_case a' b'
  | _, _ => false
  end.

End AutoMerge.

(** ** The texts and names on which the serializer is exact *)

(** A character [JSON.stringify] copies as it is: not a control character,
    not the double quote, not the backslash. *)
Definition plain_char (c : ascii) : bool :=
  let n := N_of_ascii c in
  ((32 <=? n) && negb (n =? 34) && negb (n =? 92))%N.

Fixpoint plain_text (s : string) : bool :=
  match s with
  | EmptyString => true
  | String c s' => plain_char c && plain_text s'
  end.

(** An array index: the canonical decimal text of an integer below
    [2^32 - 1].  JavaScript lists properties with such names first. *)
Definition is_array_index (k : string) : bool :=
  match k with
  | EmptyString => false
  | String c rest =>
      match decimal_digits 0 k with
      | Some z =>
          (negb (Ascii.eqb c "0") || String.eqb rest EmptyString)
          && (z <? 2 ^ 32 - 1)
      | None => false
      end
  end.

(** A property name an object literal keeps in source order as an own
    property: neither an array index nor [__proto__]. *)
Definition ordinary_property_name (k : string) : Prop :=
  k ≠ "__proto__" ∧ is_array_index k = false.

(** The numbers whose JSON text is modelled exactly: [NaN], printed as
    [null], and the integers below [10^21] in magnitude, printed as their
    decimal digits. *)
Definition prints_in_full (n : JsNumber) : Prop :=
  match n with
  | JNaN => True
  | JInt z => Z.abs z < 10 ^ 21
  end.

(** The text of such a number in a JSON document. *)
Definition json_number_text (n : JsNumber) : string :=
  match n with
  | JNaN => "null"
  | JInt z => pretty z
  end.

(** * Properties *)

(** ** Signed 32-bit range and bitwise OR *)

Lemma int32_div (z : Z) : int32 z ↔ z / 2 ^ 31 = 0 ∨ z / 2 ^ 31 = -1.
Proof.
  unfold int32. split.
  - intros [Hlo Hhi].
    destruct (Z.neg_nonneg_cases z) as [Hneg | Hpos].
    + right. symmetry. apply (Z.div_unique z (2 ^ 31) (-1) (z + 2 ^ 31)); lia.
    + left. apply Z.div_small. lia.
  - intros Hq.
    pose proof (Z.div_mod z (2 ^ 31) ltac:(lia)) as Hdm.
    pose proof (Z.mod_pos_bound z (2 ^ 31) ltac:(lia)) as Hb.
    destruct Hq as [Hq | Hq]; rewrite Hq in Hdm; lia.
Qed.

Lemma int32_lor (x y : Z) : int32 x → int32 y → int32 (Z.lor x y).
Proof.
  rewrite !int32_div, <- !Z.shiftr_div_pow2 by lia.
  rewrite Z.shiftr_lor.
  intros [-> | ->] [-> | ->]; cbn; auto.
Qed.

Lemma int32_0 : int32 0.
Proof. unfold int32. lia. Qed.

Lemma ToInt32_int32 (n : JsNumber) : int32 (ToInt32 n).
Proof.
  destruct n as [| z]; cbn -[Z.pow]; [apply int32_0 |].
  pose proof (Z.mod_pos_bound z (2 ^ 32) ltac:(lia)) as Hb.
  unfold int32. destruct (Z.leb_spec (2 ^ 31) (z mod 2 ^ 32)); lia.
Qed.

Lemma ToInt32_id (z : Z) : int32 z → ToInt32 (JInt z) = z.
Proof.
  unfold int32. intros [Hlo Hhi]. cbn -[Z.pow Z.modulo].
  destruct (Z.neg_nonneg_cases z) as [Hneg | Hpos].
  - assert (z mod 2 ^ 32 = z + 2 ^ 32) as ->.
    { symmetry. apply (Z.mod_unique z (2 ^ 32) (-1)); lia. }
    destruct (Z.leb_spec (2 ^ 31) (z + 2 ^ 32)); lia.
  - rewrite Z.mod_small by lia.
    destruct (Z.leb_spec (2 ^ 31) z); lia.
Qed.

Lemma lor_all_nil : lor_all [] = 0.
Proof. reflexivity. Qed.

Lemma lor_all_cons (x : Z) (l : list Z) : lor_all (x :: l) = Z.lor x (lor_all l).
Proof. reflexivity. Qed.

Lemma lor_all_int32 (l : list Z) : Forall int32 l → int32 (lor_all l).
Proof.
  induction 1 as [| x l Hx _ IH]; [apply int32_0 |].
  rewrite lor_all_cons. by apply int32_lor.
Qed.

Lemma lor_all_app (l1 l2 : list Z) :
  lor_all (l1 ++ l2) = Z.lor (lor_all l1) (lor_all l2).
Proof.
  induction l1 as [| x l1 IH]; [done |].
  rewrite <- app_comm_cons, !lor_all_cons, IH. apply Z.lor_assoc.
Qed.

Lemma lor_all_Permutation (l1 l2 : list Z) :
  l1 ≡ₚ l2 → lor_all l1 = lor_all l2.
Proof.
  induction 1 as [| x l1 l2 _ IH | x y l | l1 l2 l3 _ IH1 _ IH2].
  - done.
  - by rewrite !lor_all_cons, IH.
  - rewrite !lor_all_cons, !Z.lor_assoc. f_equal. apply Z.lor_comm.
  - congruence.
Qed.

Lemma lor_all_testbit (l : list Z) (i : Z) :
  Z.testbit (lor_all l) i = true ↔ ∃ v, v ∈ l ∧ Z.testbit v i = true.
Proof.
  induction l as [| x l IH].
  - rewrite lor_all_nil, Z.bits_0. split; [done |].
    intros (v & Hv & _). by apply elem_of_nil in Hv.
  - rewrite lor_all_cons, Z.lor_spec, orb_true_iff, IH. split.
    + intros [Hx | (v & Hv & Hb)].
      * exists x. split; [apply list_elem_of_here | done].
      * exists v. split; [by apply list_elem_of_further | done].
    + intros (v & Hv & Hb). apply elem_of_cons in Hv as [-> | Hv]; eauto.
Qed.

(** ** The mask loop *)

Section SettingsMaskFacts.

Variable settingsValues : gmap string Z.

Lemma settingsValue_step_lor (acc : JsNumber) (c : Control) :
  settingsValue_step settingsValues acc c
  = JInt (Z.lor (ToInt32 acc) (contribution settingsValues c)).
Proof. reflexivity. Qed.

Lemma fold_settingsValue_step (cs : list Control) (a : Z) :
  int32 a →
  fold_left (settingsValue_step settingsValues) cs (JInt a)
  = JInt (Z.lor a (lor_all (map (contribution settingsValues) cs))).
Proof.
  revert a. induction cs as [| c cs IH]; intros a Ha.
  - cbn. by rewrite Z.lor_0_r.
  - cbn [fold_left map]. rewrite settingsValue_step_lor, ToInt32_id by done.
    rewrite IH, lor_all_cons, Z.lor_assoc; [done |].
    apply int32_lor; [done | apply ToInt32_int32].
Qed.

Lemma computeSettingsValue_contributions (cs : list Control) :
  computeSettingsValue settingsValues cs
  = JInt (lor_all (map (contribution settingsValues) cs)).
Proof.
  unfold computeSettingsValue.
  rewrite fold_settingsValue_step by apply int32_0. by rewrite Z.lor_0_l.
Qed.

Lemma contribution_enabled_bit (c : Control) :
  contribution settingsValues c
  = match enabled_bit settingsValues c with
    | Some v => ToInt32 (JInt v)
    | None => 0
    end.
Proof.
  unfold contribution, enabled_bit.
  destruct (settingsValues !! name c) as [v |], (checked c); cbn [ToNumber_property ToNumber_bool js_mul]; try reflexivity.
  - by rewrite Z.mul_1_r.
  - by rewrite Z.mul_0_r.
Qed.

Lemma contribution_unregistered (c : Control) :
  settingsValues !! name c = None → contribution settingsValues c = 0.
Proof. intros H. unfold contribution. by rewrite H. Qed.

Lemma contribution_unchecked (c : Control) :
  checked c = false → contribution settingsValues c = 0.
Proof.
  intros H. rewrite contribution_enabled_bit. unfold enabled_bit. by rewrite H.
Qed.

Lemma lor_all_contributions (cs : list Control) :
  lor_all (map (contribution settingsValues) cs)
  = lor_all (map (λ v, ToInt32 (JInt v)) (enabled_bits settingsValues cs)).
Proof.
  induction cs as [| c cs IH]; [done |].
  cbn [map]. rewrite lor_all_cons, IH, contribution_enabled_bit.
  unfold enabled_bits. cbn [omap list_omap].
  destruct (enabled_bit settingsValues c) as [v |]; [done |].
  apply Z.lor_0_l.
Qed.

Lemma enabled_bits_int32 (cs : list Control) :
  int32_registry settingsValues → Forall int32 (enabled_bits settingsValues cs).
Proof.
  intros Hreg. apply Forall_forall. intros v Hv.
  apply list_elem_of_omap in Hv as (c & _ & Hc).
  unfold enabled_bit in Hc. destruct (checked c); [| done].
  by apply (Hreg (name c)).
Qed.

Lemma map_ToInt32_id (l : list Z) :
  Forall int32 l → map (λ v, ToInt32 (JInt v)) l = l.
Proof.
  induction 1 as [| v l Hv _ IH]; [done |].
  cbn [map]. by rewrite ToInt32_id, IH.
Qed.

Lemma computeSettingsValue_enabled_bits (cs : list Control) :
  int32_registry settingsValues →
  computeSettingsValue settingsValues cs
  = JInt (lor_all (enabled_bits settingsValues cs)).
Proof.
  intros Hreg.
  rewrite computeSettingsValue_contributions, lor_all_contributions.
  by rewrite map_ToInt32_id by by apply enabled_bits_int32.
Qed.

End SettingsMaskFacts.

Section RegistryFacts.

Variable settingsValues : gmap string Z.

Lemma lor_all_filter_registered (cs : list Control) :
  lor_all (map (contribution settingsValues)
               (List.filter (registered settingsValues) cs))
  = lor_all (map (contribution settingsValues) cs).
Proof.
  induction cs as [| c cs IH]; [done |].
  cbn [List.filter map]. unfold registered at 1.
  destruct (settingsValues !! name c) as [v |] eqn:Hc; cbn [bool_decide decide_rel is_Some_dec].
  - cbn [map]. by rewrite !lor_all_cons, IH.
  - rewrite lor_all_cons, IH, contribution_unregistered by done.
    by rewrite Z.lor_0_l.
Qed.

Lemma registry_or_lor_all :
  registry_or settingsValues = lor_all (map snd (map_to_list settingsValues)).
Proof.
  unfold registry_or. rewrite map_fold_foldr.
  induction (map_to_list settingsValues) as [| [k v] l IH]; [done |].
  cbn [foldr map]. rewrite lor_all_cons. cbn. by rewrite IH.
Qed.

Lemma registry_or_testbit (i : Z) :
  Z.testbit (registry_or settingsValues) i = true
  ↔ ∃ n v, settingsValues !! n = Some v ∧ Z.testbit v i = true.
Proof.
  rewrite registry_or_lor_all, lor_all_testbit. split.
  - intros (v & Hv & Hb). apply list_elem_of_fmap in Hv as ([n v'] & -> & Hv).
    apply elem_of_map_to_list in Hv. by exists n, v'.
  - intros (n & v & Hn & Hb). exists v. split; [| done].
    apply list_elem_of_fmap. exists (n, v). split; [done |].
    by apply elem_of_map_to_list.
Qed.

Lemma enabled_bits_testbit (cs : list Control) (i : Z) :
  Z.testbit (lor_all (enabled_bits settingsValues cs)) i = true
  ↔ ∃ c v, c ∈ cs ∧ checked c = true
           ∧ settingsValues !! name c = Some v ∧ Z.testbit v i = true.
Proof.
  rewrite lor_all_testbit. unfold enabled_bits. split.
  - intros (v & Hv & Hb). apply list_elem_of_omap in Hv as (c & Hc & Hv).
    unfold enabled_bit in Hv. destruct (checked c) eqn:Hch; [| done].
    by exists c, v.
  - intros (c & v & Hc & Hch & Hv & Hb). exists v. split; [| done].
    apply list_elem_of_omap. exists c. split; [done |].
    unfold enabled_bit. by rewrite Hch.
Qed.

Lemma enabled_bits_all_checked (cs : list Control) :
  Forall (λ c, checked c = true) cs →
  enabled_bits settingsValues cs = registered_bits settingsValues cs.
Proof.
  induction 1 as [| c cs Hc _ IH]; [done |].
  unfold enabled_bits, registered_bits in *. cbn [omap list_omap].
  unfold enabled_bit at 1. by rewrite Hc, IH.
Qed.

Lemma enabled_bits_none_checked (cs : list Control) :
  Forall (λ c, checked c = false) cs →
  enabled_bits settingsValues cs = [].
Proof.
  induction 1 as [| c cs Hc _ IH]; [done |].
  unfold enabled_bits in *. cbn [omap list_omap].
  unfold enabled_bit at 1. by rewrite Hc, IH.
Qed.

Lemma enabled_bits_Permutation (cs cs' : list Control) :
  cs ≡ₚ cs' →
  enabled_bits settingsValues cs ≡ₚ enabled_bits settingsValues cs'.
Proof. intros H. unfold enabled_bits. by rewrite H. Qed.

Lemma registered_bits_cover (cs : list Control) :
  (∀ n, is_Some (settingsValues !! n) → ∃ c, c ∈ cs ∧ name c = n) →
  lor_all (registered_bits settingsValues cs) = registry_or settingsValues.
Proof.
  intros Hcover. apply Z.bits_inj. intros i.
  apply eq_true_iff_eq.
  rewrite registry_or_testbit, lor_all_testbit. unfold registered_bits. split.
  - intros (v & Hv & Hb). apply list_elem_of_omap in Hv as (c & _ & Hv).
    by exists (name c), v.
  - intros (n & v & Hn & Hb). exists v. split; [| done].
    destruct (Hcover n) as (c & Hc & <-); [by exists v |].
    apply list_elem_of_omap. by exists c.
Qed.

End RegistryFacts.

Lemma fold_js_bitor (l : list Z) (a : Z) :
  int32 a →
  fold_left (λ acc v, js_bitor acc (JInt v)) l (JInt a)
  = JInt (Z.lor a (lor_all (map (λ v, ToInt32 (JInt v)) l))).
Proof.
  revert a. induction l as [| v l IH]; intros a Ha.
  - cbn. by rewrite Z.lor_0_r.
  - cbn [fold_left map]. unfold js_bitor at 2. rewrite ToInt32_id by done.
    rewrite IH, lor_all_cons, Z.lor_assoc; [done |].
    apply int32_lor; [done | apply ToInt32_int32].
Qed.

Lemma js_or_all_lor_all (l : list Z) :
  js_or_all l = JInt (lor_all (map (λ v, ToInt32 (JInt v)) l)).
Proof.
  unfold js_or_all. rewrite fold_js_bitor by apply int32_0.
  by rewrite Z.lor_0_l.
Qed.

Lemma computeSettingsValue_js_or_all
    (settingsValues : gmap string Z) (cs : list Control) :
  computeSettingsValue settingsValues cs
  = js_or_all (enabled_bits settingsValues cs).
Proof.
  by rewrite computeSettingsValue_contributions, lor_all_contributions,
    js_or_all_lor_all.
Qed.

(** C1. The mask the submit handler computes is the OR, by the [|] operator,
    of the registered bit values of exactly the enabled controls.  It does not
    depend on the order of the controls, is [0] when none is enabled and, when
    all are, is the OR of every bit value registered for a control.  With a
    registry of 32-bit values [|] is the bitwise OR of the integers: a bit is
    set in the mask precisely when some enabled control's registered value
    has it, and with all controls enabled the mask is the OR of all the
    registry's values when each registered name has a control. *)
Theorem settings_mask_is_or_of_enabled_bits
    (settingsValues : gmap string Z) (children : list Control) :
  let mask := computeSettingsValue settingsValues children in
  mask = js_or_all (enabled_bits settingsValues children)
  ∧ (∀ children', children ≡ₚ children' →
       computeSettingsValue settingsValues children' = mask)
  ∧ (Forall (λ c, checked c = false) children → mask = JInt 0)
  ∧ (Forall (λ c, checked c = true) children →
       mask = js_or_all (registered_bits settingsValues children))
  ∧ (int32_registry settingsValues →
       mask = JInt (lor_all (enabled_bits settingsValues children))
       ∧ (∀ i, Z.testbit (lor_all (enabled_bits settingsValues children)) i
               = true
               ↔ ∃ c v, c ∈ children ∧ checked c = true
                        ∧ settingsValues !! name c = Some v
                        ∧ Z.testbit v i = true)
       ∧ (Forall (λ c, checked c = true) children →
            mask = JInt (lor_all (registered_bits settingsValues children))
            ∧ ((∀ n, is_Some (settingsValues !! n) →
                     ∃ c, c ∈ children ∧ name c = n) →
               mask = JInt (registry_or settingsValues)))).
Proof.
  cbn zeta. split; [apply computeSettingsValue_js_or_all |].
  split; [| split; [| split]].
  - intros cs' Hperm. rewrite !computeSettingsValue_js_or_all, !js_or_all_lor_all.
    f_equal. apply lor_all_Permutation, fmap_Permutation. symmetry.
    by apply enabled_bits_Permutation.
  - intros Hnone. rewrite computeSettingsValue_js_or_all.
    by rewrite enabled_bits_none_checked.
  - intros Hall. rewrite computeSettingsValue_js_or_all.
    by rewrite enabled_bits_all_checked.
  - intros Hreg. rewrite computeSettingsValue_enabled_bits by done.
    split; [done |]. split; [apply enabled_bits_testbit |].
    intros Hall. rewrite enabled_bits_all_checked by done.
    split; [done |]. intros Hcover. by rewrite registered_bits_cover.
Qed.

(** C6. A control whose name the registry does not know adds nothing to the
    mask, enabled or not: the mask is the one computed without that control,
    and the one computed over the registered controls only. *)
Theorem unregistered_control_contributes_nothing
    (settingsValues : gmap string Z) (before after : list Control)
    (c : Control) (Hc : settingsValues !! name c = None) :
  computeSettingsValue settingsValues (before ++ c :: after)
    = computeSettingsValue settingsValues (before ++ after)
  ∧ computeSettingsValue settingsValues (before ++ c :: after)
    = computeSettingsValue settingsValues
        (List.filter (registered settingsValues) (before ++ c :: after)).
Proof.
  rewrite !computeSettingsValue_contributions. split.
  - rewrite !map_app, !lor_all_app. cbn [map].
    rewrite lor_all_cons, contribution_unregistered by done.
    by rewrite Z.lor_0_l.
  - by rewrite lor_all_filter_registered.
Qed.

(** ** Strings *)

Lemma string_app_assoc (a b c : string) : (a +:+ b) +:+ c = a +:+ b +:+ c.
Proof.
  induction a as [| x a IH]; [done |].
  change (String x ((a +:+ b) +:+ c) = String x (a +:+ b +:+ c)).
  by rewrite IH.
Qed.

Lemma string_eqb_ne (a b : string) : a ≠ b → String.eqb a b = false.
Proof. intros H. by apply String.eqb_neq. Qed.

(** ** What each handler does to the page *)

Section HandlerFacts.

Variable tpl : Template.
Variable env : Browser.

Lemma addUserSuccess_success (data : Response) (p : Page) :
  ToBoolean (success data) = true →
  exec (addUserSuccess tpl env data) p
  = {| lastUsername := lastUsername p;
       addUserMessageBoxLink :=
         (("https://" +:+ location_host env) +:+ register_literal tpl)
           +:+ ToString (slot data);
       messageText :=
         ToString (value_of_lastUsername (lastUsername p)) +:+ " was added.";
       messageBoxDisplay := EmptyString;
       linkElmDisplay := EmptyString;
       clipboard := clipboard p;
       journal :=
         journal p
           ++ [SetMessageText
                 (ToString (value_of_lastUsername (lastUsername p))
                    +:+ " was added.");
               SetLinkElmDisplay EmptyString;
               SetMessageBoxDisplay EmptyString] |}.
Proof.
  intros H. unfold addUserSuccess, exec. rewrite H. cbn.
  by rewrite <- !List.app_assoc.
Qed.

Lemma addUserSuccess_failure (data : Response) (p : Page) :
  ToBoolean (success data) = false →
  exec (addUserSuccess tpl env data) p
  = {| lastUsername := lastUsername p;
       addUserMessageBoxLink := addUserMessageBoxLink p;
       messageText := failure_message tpl (reason data);
       messageBoxDisplay := EmptyString;
       linkElmDisplay := linkElmDisplay p;
       clipboard := clipboard p;
       journal :=
         journal p
           ++ [SetMessageText (failure_message tpl (reason data));
               SetMessageBoxDisplay EmptyString] |}.
Proof.
  intros H. unfold addUserSuccess, exec. rewrite H. cbn.
  by rewrite <- !List.app_assoc.
Qed.

Lemma addUserButton_submit_exec (form : Form) (p : Page) :
  exec (addUserButton_submit tpl env form) p
  = let settingsValue :=
      computeSettingsValue (settingsValues env) (settings_children form) in
    {| lastUsername := Some (username_value form);
       addUserMessageBoxLink := addUserMessageBoxLink p;
       messageText := "...";
       messageBoxDisplay := messageBoxDisplay p;
       linkElmDisplay := linkElmDisplay p;
       clipboard := clipboard p;
       journal :=
         journal p
           ++ [SetMessageText "...";
               PreventDefault;
               ConsoleLog settingsValue;
               Fetch (add_user_request tpl env (Some (username_value form))
                        (pgroup_value form) settingsValue)] |}.
Proof.
  unfold addUserButton_submit, exec. cbn.
  by rewrite <- !List.app_assoc.
Qed.

Lemma copyAddUserMessageLink_exec (p : Page) :
  exec copyAddUserMessageLink p
  = {| lastUsername := lastUsername p;
       addUserMessageBoxLink := addUserMessageBoxLink p;
       messageText := messageText p;
       messageBoxDisplay := messageBoxDisplay p;
       linkElmDisplay := linkElmDisplay p;
       clipboard := addUserMessageBoxLink p;
       journal := journal p ++ [ClipboardWriteText (addUserMessageBoxLink p)] |}.
Proof. reflexivity. Qed.

Lemma script_load_exec (p : Page) :
  exec script_load p
  = {| lastUsername := None;
       addUserMessageBoxLink := EmptyString;
       messageText := messageText p;
       messageBoxDisplay := messageBoxDisplay p;
       linkElmDisplay := linkElmDisplay p;
       clipboard := clipboard p;
       journal := journal p |}.
Proof. reflexivity. Qed.

Lemma run_nil (p : Page) : exec (run tpl env []) p = p.
Proof. reflexivity. Qed.

Lemma run_cons (ev : Event) (evs : list Event) (p : Page) :
  exec (run tpl env (ev :: evs)) p
  = exec (run tpl env evs) (exec (handle tpl env ev) p).
Proof.
  unfold exec. cbn [run]. unfold bind.
  by destruct (handle tpl env ev p).
Qed.

Lemma run_app (evs1 evs2 : list Event) (p : Page) :
  exec (run tpl env (evs1 ++ evs2)) p
  = exec (run tpl env evs2) (exec (run tpl env evs1) p).
Proof.
  revert p. induction evs1 as [| ev evs1 IH]; intros p; [done |].
  by rewrite <- app_comm_cons, !run_cons, IH.
Qed.

Lemma run_snoc (evs : list Event) (ev : Event) (p : Page) :
  exec (run tpl env (evs ++ [ev])) p
  = exec (handle tpl env ev) (exec (run tpl env evs) p).
Proof. by rewrite run_app, run_cons, run_nil. Qed.

(** Only a submit writes [lastUsername]. *)
Lemma handle_lastUsername (ev : Event) (p : Page) :
  is_submit ev = false →
  lastUsername (exec (handle tpl env ev) p) = lastUsername p.
Proof.
  destruct ev as [form | data |]; cbn [is_submit handle]; intros H; [done | | done].
  destruct (ToBoolean (success data)) eqn:Hs.
  - by rewrite addUserSuccess_success.
  - by rewrite addUserSuccess_failure.
Qed.

Lemma run_lastUsername (evs : list Event) (p : Page) :
  Forall (λ ev, is_submit ev = false) evs →
  lastUsername (exec (run tpl env evs) p) = lastUsername p.
Proof.
  intros H. revert p. induction H as [| ev evs Hev _ IH]; intros p; [done |].
  by rewrite run_cons, IH, handle_lastUsername.
Qed.

(** Only a successful response writes the stored link and shows the copy
    link. *)
Lemma handle_link (ev : Event) (p : Page) :
  is_success ev = false →
  addUserMessageBoxLink (exec (handle tpl env ev) p) = addUserMessageBoxLink p
  ∧ linkElmDisplay (exec (handle tpl env ev) p) = linkElmDisplay p.
Proof.
  destruct ev as [form | data |]; cbn [is_success handle]; intros H.
  - by rewrite addUserButton_submit_exec.
  - by rewrite addUserSuccess_failure.
  - done.
Qed.

Lemma run_link (evs : list Event) (p : Page) :
  Forall (λ ev, is_success ev = false) evs →
  addUserMessageBoxLink (exec (run tpl env evs) p) = addUserMessageBoxLink p
  ∧ linkElmDisplay (exec (run tpl env evs) p) = linkElmDisplay p.
Proof.
  intros H. revert p. induction H as [| ev evs Hev _ IH]; intros p; [done |].
  rewrite run_cons. destruct (IH (exec (handle tpl env ev) p)) as [-> ->].
  by apply handle_link.
Qed.

(** No handler writes anything but the empty string to the panel's
    display. *)
Lemma handle_messageBoxDisplay (ev : Event) (p : Page) :
  messageBoxDisplay p = EmptyString →
  messageBoxDisplay (exec (handle tpl env ev) p) = EmptyString.
Proof.
  destruct ev as [form | data |]; cbn [handle]; intros H.
  - by rewrite addUserButton_submit_exec.
  - destruct (ToBoolean (success data)) eqn:Hs.
    + by rewrite addUserSuccess_success.
    + by rewrite addUserSuccess_failure.
  - done.
Qed.

Lemma run_messageBoxDisplay (evs : list Event) (p : Page) :
  messageBoxDisplay p = EmptyString →
  messageBoxDisplay (exec (run tpl env evs) p) = EmptyString.
Proof.
  revert p. induction evs as [| ev evs IH]; intros p H; [done |].
  rewrite run_cons. by apply IH, handle_messageBoxDisplay.
Qed.

Lemma addUserSuccess_messageBoxDisplay (data : Response) (p : Page) :
  messageBoxDisplay (exec (addUserSuccess tpl env data) p) = EmptyString.
Proof.
  destruct (ToBoolean (success data)) eqn:Hs.
  - by rewrite addUserSuccess_success.
  - by rewrite addUserSuccess_failure.
Qed.

End HandlerFacts.

(** ** The failure switch *)

Section FailureSwitch.

Variable tpl : Template.
Hypothesis Hdistinct : NoDup (known_reasons tpl).

Local Ltac split_distinct :=
  let H := fresh "H" in
  pose proof Hdistinct as H; unfold known_reasons in H;
  repeat (apply NoDup_cons in H as [? H]);
  repeat match goal with
         | Hn : _ ∉ _ :: _ |- _ => apply not_elem_of_cons in Hn as [? Hn]
         end.

Local Ltac switch_case :=
  unfold failure_message, strict_equals_string;
  rewrite ?String.eqb_refl, ?string_eqb_ne by congruence; reflexivity.

Lemma failure_message_AlreadyExists :
  failure_message tpl (JString (AlreadyExistsError_identifier tpl))
  = "Nutzername wird bereits verwendet.".
Proof. switch_case. Qed.

Lemma failure_message_TooLong :
  failure_message tpl (JString (UsernameTooLong_identifier tpl))
  = "Nutzername muss kürzer sein.".
Proof. split_distinct. switch_case. Qed.

Lemma failure_message_TooShort :
  failure_message tpl (JString (UsernameTooShort_identifier tpl))
  = "Nutzername muss länger sein.".
Proof. split_distinct. switch_case. Qed.

Lemma failure_message_Anonymous :
  failure_message tpl (JString (CannotBeNamedAnonymous_identifier tpl))
  = "Dein Nutzername kann nicht 'Anonymous' sein.".
Proof. split_distinct. switch_case. Qed.

Lemma failure_message_InvalidCharacters :
  failure_message tpl (JString (UsernameInvalidCharacters_identifier tpl))
  = "Nutzername muss aus den Zeichen a-z, A-Z, 0-9, _ und - bestehen.".
Proof. split_distinct. switch_case. Qed.

End FailureSwitch.

Lemma failure_message_other (tpl : Template) (r : JsValue) :
  (∀ s, r = JString s → s ∉ known_reasons tpl) →
  failure_message tpl r = "Konnte nicht erstellt werden.".
Proof.
  intros Hother. unfold failure_message.
  destruct r as [| | b | n | s]; try reflexivity.
  specialize (Hother s eq_refl). unfold known_reasons in Hother.
  repeat (apply not_elem_of_cons in Hother as [? Hother]).
  unfold strict_equals_string.
  by rewrite !string_eqb_ne by done.
Qed.

(** C2. On a failure response [addUserSuccess] shows, for each of the five
    known reason identifiers, that identifier's own message, chosen by exact
    string equality; any other reason (one that is not a string, or a string
    that is none of the five, the empty string among them) gets the generic
    message.  The six messages are pairwise different. *)
Theorem failure_reason_selects_message
    (tpl : Template) (env : Browser) (data : Response) (p : Page)
    (Hfail : ToBoolean (success data) = false)
    (Hdistinct : NoDup (known_reasons tpl)) :
  let text := messageText (exec (addUserSuccess tpl env data) p) in
  (reason data = JString (AlreadyExistsError_identifier tpl) →
     text = "Nutzername wird bereits verwendet.")
  ∧ (reason data = JString (UsernameTooLong_identifier tpl) →
     text = "Nutzername muss kürzer sein.")
  ∧ (reason data = JString (UsernameTooShort_identifier tpl) →
     text = "Nutzername muss länger sein.")
  ∧ (reason data = JString (CannotBeNamedAnonymous_identifier tpl) →
     text = "Dein Nutzername kann nicht 'Anonymous' sein.")
  ∧ (reason data = JString (UsernameInvalidCharacters_identifier tpl) →
     text = "Nutzername muss aus den Zeichen a-z, A-Z, 0-9, _ und - bestehen.")
  ∧ ((∀ s, reason data = JString s → s ∉ known_reasons tpl) →
     text = "Konnte nicht erstellt werden.")
  ∧ (EmptyString ∉ known_reasons tpl → reason data = JString EmptyString →
     text = "Konnte nicht erstellt werden.")
  ∧ NoDup (map (failure_message tpl)
             (map JString (known_reasons tpl) ++ [JUndefined])).
Proof.
  cbn zeta. rewrite addUserSuccess_failure by done. cbn [messageText].
  repeat split.
  - intros ->. apply failure_message_AlreadyExists.
  - intros ->. by apply failure_message_TooLong.
  - intros ->. by apply failure_message_TooShort.
  - intros ->. by apply failure_message_Anonymous.
  - intros ->. by apply failure_message_InvalidCharacters.
  - apply failure_message_other.
  - intros Hempty Hr. apply failure_message_other.
    intros s Hs. rewrite Hr in Hs. by injection Hs as <-.
  - cbn [known_reasons map app].
    rewrite failure_message_AlreadyExists, failure_message_TooLong,
      failure_message_TooShort, failure_message_Anonymous,
      failure_message_InvalidCharacters by done.
    rewrite failure_message_other by done.
    apply (bool_decide_unpack _). vm_compute. exact I.
Qed.

Lemma failure_reason_selects_message_witness :
  messageText (exec (addUserSuccess demo_template demo_browser demo_failure)
                 demo_page)
  = "Nutzername muss kürzer sein.".
Proof.
  refine (proj1 (proj2 (failure_reason_selects_message
            demo_template demo_browser demo_failure demo_page _ _)) _).
  - reflexivity.
  - apply (bool_decide_unpack _). vm_compute. exact I.
  - reflexivity.
Defined.

(** C3. On a successful response the stored registration link is
    ["https://"], the current host, the registration path, ["?user_slot="]
    and the slot token, the token copied character for character; the scheme
    is [https] whatever the scheme of the page. *)
Theorem success_stores_registration_link
    (tpl : Template) (env : Browser) (data : Response) (p : Page)
    (token : string)
    (Hok : ToBoolean (success data) = true)
    (Htoken : slot data = JString token) :
  addUserMessageBoxLink (exec (addUserSuccess tpl env data) p)
    = "https://" +:+ location_host env +:+ url_register tpl
        +:+ "?user_slot=" +:+ token
  ∧ ∀ env' : Browser,
      location_host env' = location_host env →
      addUserMessageBoxLink (exec (addUserSuccess tpl env' data) p)
      = addUserMessageBoxLink (exec (addUserSuccess tpl env data) p).
Proof.
  split.
  - rewrite addUserSuccess_success by done. cbn [addUserMessageBoxLink].
    rewrite Htoken. cbn [ToString]. unfold register_literal.
    by rewrite !string_app_assoc.
  - intros env' Hhost. rewrite !addUserSuccess_success by done.
    cbn [addUserMessageBoxLink]. by rewrite Hhost.
Qed.

Lemma success_stores_registration_link_witness :
  addUserMessageBoxLink
    (exec (addUserSuccess demo_template demo_browser
             {| success := JBool true; reason := JUndefined;
                slot := JString "a b&c=d%2F?#" |}) demo_page)
  = "https://panel.example.org/register?user_slot=a b&c=d%2F?#".
Proof.
  refine (proj1 (success_stores_registration_link demo_template demo_browser
            {| success := JBool true; reason := JUndefined;
               slot := JString "a b&c=d%2F?#" |} demo_page "a b&c=d%2F?#" _ _)).
  - reflexivity.
  - reflexivity.
Defined.

(** ** The request body *)

Lemma object_literal_distinct3 (k1 k2 k3 : string) (v1 v2 v3 : JsValue) :
  NoDup [k1; k2; k3] →
  object_literal [(k1, v1); (k2, v2); (k3, v3)] = [(k1, v1); (k2, v2); (k3, v3)].
Proof.
  intros H.
  apply NoDup_cons in H as [H1 H]. apply NoDup_cons in H as [H2 _].
  apply not_elem_of_cons in H1 as [H12 H1].
  apply not_elem_of_cons in H1 as [H13 _].
  apply not_elem_of_cons in H2 as [H23 _].
  unfold object_literal. cbn.
  rewrite (string_eqb_ne k1 k2) by done. cbn.
  by rewrite (string_eqb_ne k1 k3), (string_eqb_ne k2 k3) by done.
Qed.

Lemma computeSettingsValue_of_bits (settingsValues : gmap string Z)
    (children : list Control) (bits : list Z) :
  enabled_bits settingsValues children ≡ₚ bits →
  Forall int32 bits →
  computeSettingsValue settingsValues children = JInt (lor_all bits).
Proof.
  intros Hperm Hbits.
  rewrite computeSettingsValue_contributions, lor_all_contributions.
  f_equal. rewrite <- (map_ToInt32_id bits) by done.
  apply lor_all_Permutation. by apply fmap_Permutation.
Qed.

(** ** Runs of the page *)

Section RunFacts.

Variable tpl : Template.
Variable env : Browser.

Lemma handle_journal_display (ev : Event) (p : Page) (e : Effect) :
  e ∈ journal (exec (handle tpl env ev) p) →
  e ∈ journal p ∨ ∀ d, e = SetMessageBoxDisplay d → d = EmptyString.
Proof.
  destruct ev as [form | data |]; cbn [handle].
  - rewrite addUserButton_submit_exec. cbn [journal].
    rewrite elem_of_app, !elem_of_cons, elem_of_nil.
    intros [? | [-> | [-> | [-> | [-> | []]]]]]; auto; right; by intros d.
  - destruct (ToBoolean (success data)) eqn:Hs.
    + rewrite addUserSuccess_success by done. cbn [journal].
      rewrite elem_of_app, !elem_of_cons, elem_of_nil.
      intros [? | [-> | [-> | [-> | []]]]]; auto; right; intros d; congruence.
    + rewrite addUserSuccess_failure by done. cbn [journal].
      rewrite elem_of_app, !elem_of_cons, elem_of_nil.
      intros [? | [-> | [-> | []]]]; auto; right; intros d; congruence.
  - rewrite copyAddUserMessageLink_exec. cbn [journal].
    rewrite elem_of_app, !elem_of_cons, elem_of_nil.
    intros [? | [-> | []]]; auto; right; by intros d.
Qed.

Lemma run_journal_display (evs : list Event) (p : Page) (e : Effect) :
  e ∈ journal (exec (run tpl env evs) p) →
  e ∈ journal p ∨ ∀ d, e = SetMessageBoxDisplay d → d = EmptyString.
Proof.
  revert p. induction evs as [| ev evs IH]; intros p; [by left |].
  rewrite run_cons. intros He.
  destruct (IH _ He) as [Hin | Hd]; [| by right].
  by apply handle_journal_display in Hin.
Qed.

End RunFacts.

(** C5. The message of a successful response is the username captured by the
    most recent submit followed by [" was added."], whatever happened
    before that submit and whatever responses or copies came in between. *)
Theorem success_message_names_last_submitted_username
    (tpl : Template) (env : Browser) (p : Page)
    (before later : list Event) (form : Form) (data : Response)
    (Hlater : Forall (λ ev, is_submit ev = false) later)
    (Hok : ToBoolean (success data) = true) :
  messageText
    (exec (run tpl env (before ++ Submit form :: later ++ [Respond data])) p)
  = username_value form +:+ " was added.".
Proof.
  rewrite run_app, run_cons, run_snoc. cbn [handle].
  rewrite addUserSuccess_success by done. cbn [messageText].
  rewrite run_lastUsername by done.
  by rewrite addUserButton_submit_exec.
Qed.

Lemma success_message_names_last_submitted_username_witness :
  messageText
    (exec (run demo_template demo_browser
             ([Submit {| username_value := "bob"; pgroup_value := "1";
                         settings_children := [] |};
               Respond demo_failure]
              ++ Submit demo_form :: [CopyLink] ++ [Respond demo_success]))
       demo_page)
  = "alice was added.".
Proof.
  apply (success_message_names_last_submitted_username
           demo_template demo_browser demo_page
           [Submit {| username_value := "bob"; pgroup_value := "1";
                      settings_children := [] |};
            Respond demo_failure]
           [CopyLink] demo_form demo_success).
  - repeat constructor.
  - reflexivity.
Defined.

(** C7. Rendering a result, success or failure, leaves the result panel's
    inline display empty, that is shown; after that it stays so through any
    further submits, results and copies, and nothing the component does ever
    writes another value to the panel's display. *)
Theorem result_panel_stays_visible
    (tpl : Template) (env : Browser) (p : Page)
    (data : Response) (later : list Event) :
  messageBoxDisplay (exec (addUserSuccess tpl env data) p) = EmptyString
  ∧ messageBoxDisplay (exec (run tpl env (Respond data :: later)) p)
    = EmptyString
  ∧ shown (messageBoxDisplay (exec (run tpl env (Respond data :: later)) p))
    = true
  ∧ ∀ (evs : list Event) (d : string),
      SetMessageBoxDisplay d ∈ journal (exec (run tpl env evs) p) →
      SetMessageBoxDisplay d ∈ journal p ∨ d = EmptyString.
Proof.
  assert (messageBoxDisplay (exec (run tpl env (Respond data :: later)) p)
          = EmptyString) as Hrun.
  { rewrite run_cons. apply run_messageBoxDisplay.
    apply addUserSuccess_messageBoxDisplay. }
  split; [apply addUserSuccess_messageBoxDisplay |].
  split; [exact Hrun |]. split; [by rewrite Hrun |].
  intros evs d Hd. apply run_journal_display in Hd as [Hd | Hd]; [by left |].
  right. by apply Hd.
Qed.

(** C8. Until a successful response arrives, the stored registration link is
    the empty string the script initialised it to, so copying writes the empty
    string to the clipboard; the copy is a plain write and always
    completes. *)
Theorem copy_before_any_success_copies_empty
    (tpl : Template) (env : Browser) (p : Page) (evs : list Event)
    (Hnone : Forall (λ ev, is_success ev = false) evs) :
  let q := exec (run tpl env (evs ++ [CopyLink])) (exec script_load p) in
  clipboard q = EmptyString
  ∧ last (journal q) = Some (ClipboardWriteText EmptyString)
  ∧ addUserMessageBoxLink q = EmptyString.
Proof.
  cbn zeta. rewrite run_snoc. cbn [handle].
  rewrite copyAddUserMessageLink_exec.
  cbn [clipboard journal addUserMessageBoxLink].
  destruct (run_link tpl env evs (exec script_load p) Hnone) as [-> _].
  rewrite script_load_exec. cbn [addUserMessageBoxLink].
  by rewrite last_snoc.
Qed.

Lemma copy_before_any_success_copies_empty_witness :
  clipboard
    (exec (run demo_template demo_browser
             ([Submit demo_form; Respond demo_failure; CopyLink] ++ [CopyLink]))
       (exec script_load demo_page))
  = EmptyString.
Proof.
  refine (proj1 (copy_before_any_success_copies_empty
                   demo_template demo_browser demo_page
                   [Submit demo_form; Respond demo_failure; CopyLink] _)).
  repeat constructor.
Defined.

(** C9, as the script has it.  A submit first sets the status text to three
    full stops, ["..."], and the request is the last thing it issues: nothing
    between the two writes the text again, so the request goes out with
    ["..."] showing. *)
Theorem submit_shows_three_dots_before_fetch
    (tpl : Template) (env : Browser) (form : Form) (p : Page) :
  ∃ between req,
    journal (exec (addUserButton_submit tpl env form) p)
      = journal p ++ SetMessageText "..." :: between ++ [Fetch req]
    ∧ (∀ t, SetMessageText t ∉ between)
    ∧ (∀ r, Fetch r ∉ between)
    ∧ messageText (exec (addUserButton_submit tpl env form) p) = "...".
Proof.
  rewrite addUserButton_submit_exec. cbn zeta. cbn [journal messageText].
  eexists [PreventDefault; ConsoleLog _], _.
  split; [reflexivity |].
  split; [| split; [| reflexivity]].
  - intros t Ht. apply elem_of_cons in Ht as [Ht | Ht]; [discriminate |].
    apply elem_of_cons in Ht as [Ht | Ht]; [discriminate |].
    by apply elem_of_nil in Ht.
  - intros r Hr. apply elem_of_cons in Hr as [Hr | Hr]; [discriminate |].
    apply elem_of_cons in Hr as [Hr | Hr]; [discriminate |].
    by apply elem_of_nil in Hr.
Qed.

(** C9, as the claim words it, fails: the text a submit sets is not the
    single character U+2026, and no effect of the submit writes that
    character. *)
Lemma submit_placeholder_is_not_horizontal_ellipsis :
  let q := exec (addUserButton_submit demo_template demo_browser demo_form)
             demo_page in
  "…" = horizontal_ellipsis
  ∧ messageText q ≠ horizontal_ellipsis
  ∧ SetMessageText horizontal_ellipsis ∉ journal q.
Proof.
  cbn zeta. split; [reflexivity |]. split.
  - by vm_compute.
  - rewrite addUserButton_submit_exec. cbn zeta. cbn [journal demo_page app].
    unfold horizontal_ellipsis. intros H.
    repeat (apply elem_of_cons in H as [H | H]; [discriminate |]).
    by apply elem_of_nil in H.
Qed.

(** C10. A failure response leaves the stored registration link and the
    copy link's display as they were.  So after a success, whatever follows
    short of another success, a failure among it, a copy still writes the link
    of that success to the clipboard, and the copy link is still shown. *)
Theorem failure_keeps_registration_link
    (tpl : Template) (env : Browser) (p : Page) (data : Response)
    (Hfail : ToBoolean (success data) = false) :
  addUserMessageBoxLink (exec (addUserSuccess tpl env data) p)
    = addUserMessageBoxLink p
  ∧ linkElmDisplay (exec (addUserSuccess tpl env data) p) = linkElmDisplay p
  ∧ ∀ (ok : Response) (between : list Event),
      ToBoolean (success ok) = true →
      Forall (λ ev, is_success ev = false) between →
      let q := exec (run tpl env
                       (Respond ok :: between ++ [Respond data; CopyLink])) p in
      clipboard q
        = addUserMessageBoxLink (exec (addUserSuccess tpl env ok) p)
      ∧ linkElmDisplay q = EmptyString
      ∧ shown (linkElmDisplay q) = true.
Proof.
  split; [by rewrite addUserSuccess_failure |].
  split; [by rewrite addUserSuccess_failure |].
  intros ok between Hok Hbetween. cbn zeta.
  rewrite run_cons, run_app, run_cons, run_cons, run_nil. cbn [handle].
  rewrite copyAddUserMessageLink_exec. cbn [clipboard linkElmDisplay].
  rewrite addUserSuccess_failure by done.
  cbn [addUserMessageBoxLink linkElmDisplay].
  destruct (run_link tpl env between (exec (addUserSuccess tpl env ok) p)
              Hbetween) as [-> ->].
  split; [done |].
  rewrite (addUserSuccess_success tpl env ok) by done.
  by cbn [linkElmDisplay].
Qed.

Lemma failure_keeps_registration_link_witness :
  clipboard
    (exec (run demo_template demo_browser
             (Respond demo_success
                :: [Submit demo_form] ++ [Respond demo_failure; CopyLink]))
       (exec (addUserButton_submit demo_template demo_browser demo_form)
          (exec script_load demo_page)))
  = "https://panel.example.org/register?user_slot=abc123".
Proof.
  refine (proj1 (proj2 (proj2 (failure_keeps_registration_link
            demo_template demo_browser
            (exec (addUserButton_submit demo_template demo_browser demo_form)
               (exec script_load demo_page))
            demo_failure _)) demo_success [Submit demo_form] _ _)).
  - reflexivity.
  - reflexivity.
  - repeat constructor.
Defined.

(** ** The scenarios, evaluated *)

Lemma demo_registry_int32 : int32_registry demo_registry.
Proof.
  unfold int32_registry, demo_registry. intros n v Hn.
  repeat (apply lookup_insert_Some in Hn as [[_ <-] | [_ Hn]];
          [unfold int32; lia |]).
  by rewrite lookup_empty in Hn.
Qed.

Lemma settings_mask_is_or_of_enabled_bits_witness :
  computeSettingsValue demo_registry (settings_children demo_form) = JInt 5.
Proof.
  refine (eq_trans (proj1 (proj2 (proj2 (proj2 (proj2
            (settings_mask_is_or_of_enabled_bits
               demo_registry (settings_children demo_form))))) _)) _).
  - exact demo_registry_int32.
  - vm_compute. reflexivity.
Defined.

Lemma unregistered_control_contributes_nothing_witness :
  computeSettingsValue demo_registry (settings_children demo_form)
  = computeSettingsValue demo_registry
      [mkControl "create_members" true;
       mkControl "view_members" false;
       mkControl "edit_members" true].
Proof.
  refine (proj1 (unregistered_control_contributes_nothing demo_registry
            [mkControl "create_members" true;
             mkControl "view_members" false;
             mkControl "edit_members" true]
            [] (mkControl "unknown_setting" true) _)).
  vm_compute. reflexivity.
Defined.

(** Outside the 32-bit range the [|] operator does not keep a registered
    value as it is: bit 31 comes out as the sign, bit 32 is dropped. *)
Example mask_of_bit_31_and_32 :
  computeSettingsValue (<["a" := 2 ^ 31]> (<["b" := 2 ^ 32]> ∅))
    [mkControl "a" true; mkControl "b" true]
  = JInt (- 2 ^ 31).
Proof. vm_compute. reflexivity. Qed.

(** The whole concrete scenario: submit, success, copy. *)
Example demo_scenario :
  let q := exec (run demo_template demo_browser
                   [Submit demo_form; Respond demo_success; CopyLink])
             (exec script_load demo_page) in
  messageText q = "alice was added."
  ∧ addUserMessageBoxLink q
    = "https://panel.example.org/register?user_slot=abc123"
  ∧ clipboard q = addUserMessageBoxLink q
  ∧ messageBoxDisplay q = EmptyString
  ∧ linkElmDisplay q = EmptyString.
Proof. vm_compute. repeat split. Qed.

(** * Further properties of the script *)

(** ** The mask as a 32-bit value *)

Lemma ToInt32_mod (z : Z) : ToInt32 (JInt z) mod 2 ^ 32 = z mod 2 ^ 32.
Proof.
  cbn -[Z.pow Z.modulo].
  pose proof (Z.mod_pos_bound z (2 ^ 32) ltac:(lia)) as Hb.
  destruct (Z.leb_spec (2 ^ 31) (z mod 2 ^ 32)).
  - replace (z mod 2 ^ 32 - 2 ^ 32) with (z mod 2 ^ 32 + (-1) * 2 ^ 32) by lia.
    by rewrite Z.mod_add, Z.mod_mod by lia.
  - by rewrite Z.mod_mod by lia.
Qed.

Lemma ToInt32_testbit_low (z i : Z) :
  0 ≤ i < 32 → Z.testbit (ToInt32 (JInt z)) i = Z.testbit z i.
Proof.
  intros Hi.
  rewrite <- (Z.mod_pow2_bits_low (ToInt32 (JInt z)) 32 i) by lia.
  rewrite ToInt32_mod. apply Z.mod_pow2_bits_low. lia.
Qed.

Lemma ToInt32_congruent (z1 z2 : Z) :
  z1 mod 2 ^ 32 = z2 mod 2 ^ 32 → ToInt32 (JInt z1) = ToInt32 (JInt z2).
Proof. intros H. cbn -[Z.pow Z.modulo]. by rewrite H. Qed.

Lemma int32_negative_bit31 (m : Z) :
  int32 m → (m < 0 ↔ Z.testbit m 31 = true).
Proof.
  intros Hm. pose proof Hm as Hr. unfold int32 in Hr.
  rewrite Z.testbit_odd, Z.shiftr_div_pow2 by lia.
  apply int32_div in Hm as [Hq | Hq]; rewrite Hq; cbn.
  - split; [| done]. intros Hneg.
    pose proof (Z.div_mod m (2 ^ 31) ltac:(lia)) as Hdm.
    pose proof (Z.mod_pos_bound m (2 ^ 31) ltac:(lia)) as Hb.
    rewrite Hq in Hdm. lia.
  - split; [done |]. intros _.
    pose proof (Z.div_mod m (2 ^ 31) ltac:(lia)) as Hdm.
    pose proof (Z.mod_pos_bound m (2 ^ 31) ltac:(lia)) as Hb.
    rewrite Hq in Hdm. lia.
Qed.

Lemma contributions_int32 (settingsValues : gmap string Z) (cs : list Control) :
  Forall int32 (map (contribution settingsValues) cs).
Proof.
  apply Forall_forall. intros m Hm.
  apply list_elem_of_fmap in Hm as (c & -> & _). apply ToInt32_int32.
Qed.

Lemma mask_value (settingsValues : gmap string Z) (cs : list Control) :
  ∃ m, computeSettingsValue settingsValues cs = JInt m
       ∧ m = lor_all (map (λ v, ToInt32 (JInt v)) (enabled_bits settingsValues cs))
       ∧ int32 m.
Proof.
  eexists. split; [apply computeSettingsValue_contributions |].
  split; [apply lor_all_contributions |].
  apply lor_all_int32, contributions_int32.
Qed.

(** X1. Whatever the registry holds and whichever controls are enabled, the
    mask the submit handler computes is an integer in the signed 32-bit range
    [-2^31 .. 2^31 - 1]; it is never [NaN]. *)
Theorem settings_mask_is_int32
    (settingsValues : gmap string Z) (children : list Control) :
  ∃ m, computeSettingsValue settingsValues children = JInt m
       ∧ - 2 ^ 31 ≤ m < 2 ^ 31.
Proof.
  destruct (mask_value settingsValues children) as (m & Hm & _ & Hr).
  by exists m.
Qed.

Lemma enabled_low_bits (settingsValues : gmap string Z) (cs : list Control)
    (i : Z) :
  0 ≤ i < 32 →
  Z.testbit (lor_all (map (λ v, ToInt32 (JInt v))
                        (enabled_bits settingsValues cs))) i = true
  ↔ ∃ c v, c ∈ cs ∧ checked c = true
           ∧ settingsValues !! name c = Some v ∧ Z.testbit v i = true.
Proof.
  intros Hi. rewrite lor_all_testbit. unfold enabled_bits. split.
  - intros (w & Hw & Hb). apply list_elem_of_fmap in Hw as (v & -> & Hv).
    apply list_elem_of_omap in Hv as (c & Hc & Hv).
    unfold enabled_bit in Hv. destruct (checked c) eqn:Hch; [| done].
    rewrite ToInt32_testbit_low in Hb by done. by exists c, v.
  - intros (c & v & Hc & Hch & Hv & Hb). exists (ToInt32 (JInt v)).
    split; [| by rewrite ToInt32_testbit_low].
    apply list_elem_of_fmap. exists v. split; [done |].
    apply list_elem_of_omap. exists c. split; [done |].
    unfold enabled_bit. by rewrite Hch.
Qed.

(** X2. For any registry, each of the low 32 bits of the mask is set exactly
    when some enabled control's registered value has that bit; the mask is
    negative exactly when some enabled control's registered value has bit 31.
    Bits of a registered value above bit 31 never reach the mask. *)
Theorem settings_mask_low_bits
    (settingsValues : gmap string Z) (children : list Control) :
  ∃ m, computeSettingsValue settingsValues children = JInt m
       ∧ (∀ i, 0 ≤ i < 32 →
            Z.testbit m i = true
            ↔ ∃ c v, c ∈ children ∧ checked c = true
                     ∧ settingsValues !! name c = Some v
                     ∧ Z.testbit v i = true)
       ∧ (m < 0
          ↔ ∃ c v, c ∈ children ∧ checked c = true
                   ∧ settingsValues !! name c = Some v
                   ∧ Z.testbit v 31 = true).
Proof.
  destruct (mask_value settingsValues children) as (m & Hm & Hbits & Hr).
  exists m. split; [done |]. split.
  - intros i Hi. rewrite Hbits. by apply enabled_low_bits.
  - rewrite int32_negative_bit31 by done. rewrite Hbits.
    apply enabled_low_bits. lia.
Qed.

Lemma js_bitor_int32 (a b : Z) :
  int32 a → int32 b → js_bitor (JInt a) (JInt b) = JInt (Z.lor a b).
Proof. intros Ha Hb. unfold js_bitor. by rewrite !ToInt32_id. Qed.

Lemma computeSettingsValue_app (settingsValues : gmap string Z)
    (l1 l2 : list Control) :
  computeSettingsValue settingsValues (l1 ++ l2)
  = js_bitor (computeSettingsValue settingsValues l1)
             (computeSettingsValue settingsValues l2).
Proof.
  rewrite !computeSettingsValue_contributions.
  rewrite js_bitor_int32 by apply lor_all_int32, contributions_int32.
  by rewrite map_app, lor_all_app.
Qed.

Lemma contribution_multiple (settingsValues : gmap string Z) (c : Control)
    (v : Z) :
  settingsValues !! name c = Some v → v mod 2 ^ 32 = 0 →
  contribution settingsValues c = 0.
Proof.
  intros Hv Hmod. rewrite contribution_enabled_bit. unfold enabled_bit.
  rewrite Hv. destruct (checked c); [| done].
  cbn -[Z.pow Z.modulo]. by rewrite Hmod.
Qed.

Lemma contribution_insert_congruent (settingsValues : gmap string Z)
    (n : string) (v k : Z) (c : Control) :
  contribution (<[n := v + k * 2 ^ 32]> settingsValues) c
  = contribution (<[n := v]> settingsValues) c.
Proof.
  rewrite !contribution_enabled_bit. unfold enabled_bit.
  destruct (checked c); [| done].
  destruct (decide (n = name c)) as [-> | Hne].
  - rewrite !lookup_insert_eq. apply ToInt32_congruent.
    by rewrite Z.mod_add by lia.
  - by rewrite !lookup_insert_ne by done.
Qed.

(** X3. Only the low 32 bits of a registered value matter.  An enabled
    control whose registered value is a multiple of [2^32] (a flag at bit 32 or
    above) adds nothing to the mask, and changing a registered value by a
    multiple of [2^32] changes no mask. *)
Theorem settings_mask_drops_bits_above_31
    (settingsValues : gmap string Z) (before after : list Control)
    (c : Control) (v : Z)
    (Hv : settingsValues !! name c = Some v)
    (Hmod : v mod 2 ^ 32 = 0) :
  computeSettingsValue settingsValues (before ++ c :: after)
    = computeSettingsValue settingsValues (before ++ after)
  ∧ ∀ (n : string) (w k : Z) (children : list Control),
      computeSettingsValue (<[n := w + k * 2 ^ 32]> settingsValues) children
      = computeSettingsValue (<[n := w]> settingsValues) children.
Proof.
  split.
  - rewrite !computeSettingsValue_contributions, !map_app, !lor_all_app.
    cbn [map]. rewrite lor_all_cons, (contribution_multiple _ _ v) by done.
    by rewrite Z.lor_0_l.
  - intros n w k cs. rewrite !computeSettingsValue_contributions.
    do 2 f_equal. apply map_ext. intros a.
    apply contribution_insert_congruent.
Qed.

Lemma settings_mask_drops_bits_above_31_witness :
  computeSettingsValue (<["wide" := 2 ^ 32]> demo_registry)
    ([mkControl "create_members" true] ++ mkControl "wide" true :: [])
  = JInt 1.
Proof.
  refine (eq_trans (proj1 (settings_mask_drops_bits_above_31
            (<["wide" := 2 ^ 32]> demo_registry)
            [mkControl "create_members" true] []
            (mkControl "wide" true) (2 ^ 32) _ _)) _).
  - vm_compute. reflexivity.
  - vm_compute. reflexivity.
  - vm_compute. reflexivity.
Defined.

(** X4. The mask of a list of controls is the [|] of the masks of its parts,
    so listing the same controls twice changes nothing. *)
Theorem settings_mask_of_concatenation
    (settingsValues : gmap string Z) (first second : list Control) :
  computeSettingsValue settingsValues (first ++ second)
    = js_bitor (computeSettingsValue settingsValues first)
               (computeSettingsValue settingsValues second)
  ∧ computeSettingsValue settingsValues (first ++ first)
    = computeSettingsValue settingsValues first.
Proof.
  split; [apply computeSettingsValue_app |].
  rewrite !computeSettingsValue_contributions, map_app, lor_all_app.
  by rewrite Z.lor_diag.
Qed.

(** X5. Checking a box never clears a bit of the mask: the mask with a
    control enabled is the mask with it disabled, ORed with that control's
    own mask. *)
Theorem enabling_a_control_only_adds_bits
    (settingsValues : gmap string Z) (before after : list Control)
    (n : string) :
  let off := computeSettingsValue settingsValues
               (before ++ mkControl n false :: after) in
  let on := computeSettingsValue settingsValues
              (before ++ mkControl n true :: after) in
  on = js_bitor off (computeSettingsValue settingsValues [mkControl n true])
  ∧ ∃ m_off m_on,
      off = JInt m_off ∧ on = JInt m_on
      ∧ ∀ i, Z.testbit m_off i = true → Z.testbit m_on i = true.
Proof.
  cbn zeta. rewrite !computeSettingsValue_contributions.
  rewrite js_bitor_int32 by apply lor_all_int32, contributions_int32.
  rewrite !map_app, !lor_all_app. cbn [map]. rewrite !lor_all_cons, lor_all_nil.
  rewrite (contribution_unchecked _ (mkControl n false)) by done.
  rewrite !Z.lor_0_l, Z.lor_0_r.
  set (x := lor_all (map (contribution settingsValues) before)).
  set (y := lor_all (map (contribution settingsValues) after)).
  set (z := contribution settingsValues (mkControl n true)).
  split.
  - f_equal. rewrite <- !Z.lor_assoc. f_equal. apply Z.lor_comm.
  - eexists _, _. split; [reflexivity |]. split; [reflexivity |].
    intros i. rewrite !Z.lor_spec, !orb_true_iff. tauto.
Qed.

(** ** Requests, clipboard and copy link over whole runs *)

Section JournalFacts.

Variable tpl : Template.
Variable env : Browser.

Lemma handle_journal (ev : Event) (p : Page) :
  ∃ added,
    journal (exec (handle tpl env ev) p) = journal p ++ added
    ∧ fetches added
      = match ev with
        | Submit form => [request_of_form tpl env form]
        | _ => []
        end
    ∧ clipboard_writes added
      = match ev with
        | CopyLink => [addUserMessageBoxLink p]
        | _ => []
        end
    ∧ Forall (λ d, d = EmptyString) (linkElm_writes added).
Proof.
  destruct ev as [form | data |]; cbn [handle].
  - rewrite addUserButton_submit_exec. cbn zeta. cbn [journal].
    eexists. split; [reflexivity |]. by repeat split.
  - destruct (ToBoolean (success data)) eqn:Hs.
    + rewrite addUserSuccess_success by done. cbn [journal].
      eexists. split; [reflexivity |]. repeat split. by repeat constructor.
    + rewrite addUserSuccess_failure by done. cbn [journal].
      eexists. split; [reflexivity |]. by repeat split.
  - rewrite copyAddUserMessageLink_exec. cbn [journal].
    eexists. split; [reflexivity |]. by repeat split.
Qed.

Lemma fetches_app (j1 j2 : list Effect) :
  fetches (j1 ++ j2) = fetches j1 ++ fetches j2.
Proof. apply omap_app. Qed.

Lemma handle_clipboard (ev : Event) (p : Page) :
  is_copy ev = false → clipboard (exec (handle tpl env ev) p) = clipboard p.
Proof.
  destruct ev as [form | data |]; cbn [is_copy handle]; intros H; [| | done].
  - by rewrite addUserButton_submit_exec.
  - destruct (ToBoolean (success data)) eqn:Hs.
    + by rewrite addUserSuccess_success.
    + by rewrite addUserSuccess_failure.
Qed.

Lemma run_linkElm_writes (evs : list Event) (p : Page) :
  ∃ ds, linkElm_writes (journal (exec (run tpl env evs) p))
        = linkElm_writes (journal p) ++ ds
        ∧ Forall (λ d, d = EmptyString) ds.
Proof.
  revert p. induction evs as [| ev evs IH]; intros p.
  - exists []. by rewrite app_nil_r.
  - rewrite run_cons.
    destruct (IH (exec (handle tpl env ev) p)) as (ds & -> & Hds).
    destruct (handle_journal ev p) as (added & -> & _ & _ & Hl).
    exists (linkElm_writes added ++ ds). split.
    + unfold linkElm_writes at 1. rewrite omap_app.
      by rewrite <- List.app_assoc.
    + by apply Forall_app.
Qed.

Lemma handle_linkElmDisplay (ev : Event) (p : Page) :
  linkElmDisplay p = EmptyString →
  linkElmDisplay (exec (handle tpl env ev) p) = EmptyString.
Proof.
  destruct ev as [form | data |]; cbn [handle]; intros H.
  - by rewrite addUserButton_submit_exec.
  - destruct (ToBoolean (success data)) eqn:Hs.
    + by rewrite addUserSuccess_success.
    + by rewrite addUserSuccess_failure.
  - done.
Qed.

Lemma run_linkElmDisplay (evs : list Event) (p : Page) :
  linkElmDisplay p = EmptyString →
  linkElmDisplay (exec (run tpl env evs) p) = EmptyString.
Proof.
  revert p. induction evs as [| ev evs IH]; intros p H; [done |].
  rewrite run_cons. by apply IH, handle_linkElmDisplay.
Qed.

End JournalFacts.

(** X6. Over any run of the page, the requests sent are exactly one per
    submit, in the order of the submits, each built from that submit's form
    alone: responses and copies send nothing, and neither the page state nor
    what happened in between changes a request. *)
Theorem one_request_per_submit
    (tpl : Template) (env : Browser) (evs : list Event) (p : Page) :
  fetches (journal (exec (run tpl env evs) p))
  = fetches (journal p) ++ map (request_of_form tpl env) (submitted evs).
Proof.
  revert p. induction evs as [| ev evs IH]; intros p.
  - cbn. by rewrite app_nil_r.
  - rewrite run_cons, IH.
    destruct (handle_journal tpl env ev p) as (added & -> & Hf & _).
    rewrite fetches_app, Hf, <- List.app_assoc. f_equal.
    by destruct ev.
Qed.

(** X7. Only the copy handler writes to the clipboard: over a run without a
    copy, the clipboard keeps its content and no write to it is issued,
    whatever is submitted and whatever responses arrive. *)
Theorem clipboard_untouched_without_copy
    (tpl : Template) (env : Browser) (evs : list Event) (p : Page)
    (Hnocopy : Forall (λ ev, is_copy ev = false) evs) :
  clipboard (exec (run tpl env evs) p) = clipboard p
  ∧ clipboard_writes (journal (exec (run tpl env evs) p))
    = clipboard_writes (journal p).
Proof.
  revert p. induction Hnocopy as [| ev evs Hev _ IH]; intros p; [done |].
  rewrite run_cons. destruct (IH (exec (handle tpl env ev) p)) as [-> ->].
  split; [by apply handle_clipboard |].
  destruct (handle_journal tpl env ev p) as (added & -> & _ & Hc & _).
  unfold clipboard_writes at 1. rewrite omap_app.
  fold (clipboard_writes (journal p)) (clipboard_writes added).
  rewrite Hc. destruct ev; [| | done]; by rewrite app_nil_r.
Qed.

Lemma clipboard_untouched_without_copy_witness :
  clipboard
    (exec (run demo_template demo_browser
             [Submit demo_form; Respond demo_success; Respond demo_failure])
       demo_page)
  = "earlier clipboard text".
Proof.
  refine (proj1 (clipboard_untouched_without_copy demo_template demo_browser
            [Submit demo_form; Respond demo_success; Respond demo_failure]
            demo_page _)).
  repeat constructor.
Defined.

(** X8. Once a successful response has shown the copy link, it stays shown
    through every later submit, failure, success and copy; and the only value
    the script ever writes to the copy link's display is the empty string. *)
Theorem copy_link_stays_shown
    (tpl : Template) (env : Browser) (p : Page) (ok : Response)
    (later : list Event)
    (Hok : ToBoolean (success ok) = true) :
  linkElmDisplay (exec (run tpl env (Respond ok :: later)) p) = EmptyString
  ∧ ∀ evs : list Event,
      ∃ ds, linkElm_writes (journal (exec (run tpl env evs) p))
            = linkElm_writes (journal p) ++ ds
            ∧ Forall (λ d, d = EmptyString) ds.
Proof.
  split.
  - rewrite run_cons. apply run_linkElmDisplay. cbn [handle].
    by rewrite addUserSuccess_success.
  - intros evs. apply run_linkElm_writes.
Qed.

Lemma copy_link_stays_shown_witness :
  linkElmDisplay
    (exec (run demo_template demo_browser
             (Respond demo_success
                :: [Submit demo_form; Respond demo_failure; CopyLink]))
       demo_page)
  = EmptyString.
Proof.
  refine (proj1 (copy_link_stays_shown demo_template demo_browser demo_page
            demo_success [Submit demo_form; Respond demo_failure; CopyLink] _)).
  reflexivity.
Defined.

(** ** The request besides its body *)

(** X9. Every request a submit sends is a [POST] to the add-user path that
    asks for and announces JSON and carries, under the configured header name,
    what the cookie reader returns for the configured cookie name.  When the
    configured header name is itself [Accept], the cookie value takes the
    place of the [Accept] header's value. *)
Theorem submit_request_headers
    (tpl : Template) (env : Browser) (form : Form) :
  let req := request_of_form tpl env form in
  url req = url_add_user tpl
  ∧ method req = "POST"
  ∧ (FIELD_CSRF_TOKEN_HEADER tpl ∉ ["Accept"; "Content-Type"] →
     headers req
     = [("Accept", JString "application/json");
        ("Content-Type", JString "application/json");
        (FIELD_CSRF_TOKEN_HEADER tpl, getCookie env (FIELD_CSRF_TOKEN tpl))])
  ∧ (FIELD_CSRF_TOKEN_HEADER tpl = "Accept" →
     headers req
     = [("Accept", getCookie env (FIELD_CSRF_TOKEN tpl));
        ("Content-Type", JString "application/json")]).
Proof.
  cbn zeta. split; [reflexivity |]. split; [reflexivity |].
  unfold request_of_form, add_user_request. cbn [headers]. split.
  - intros Hh. apply not_elem_of_cons in Hh as [Ha Hh].
    apply not_elem_of_cons in Hh as [Hc _].
    unfold object_literal. cbn -[String.eqb].
    rewrite (string_eqb_ne "Accept" "Content-Type") by done.
    cbn -[String.eqb].
    by rewrite (string_eqb_ne "Accept"), (string_eqb_ne "Content-Type")
      by done.
  - intros ->. reflexivity.
Qed.

Lemma submit_request_headers_witness :
  headers (request_of_form demo_template demo_browser demo_form)
  = [("Accept", JString "application/json");
     ("Content-Type", JString "application/json");
     ("X-CSRF-TOKEN", JString "token")].
Proof.
  refine (proj1 (proj2 (proj2 (submit_request_headers
            demo_template demo_browser demo_form))) _).
  apply (bool_decide_unpack _). vm_compute. exact I.
Defined.

(** ** What a result can show *)

Lemma failure_message_cases (tpl : Template) (r : JsValue) :
  failure_message tpl r
  ∈ ["Nutzername wird bereits verwendet.";
     "Nutzername muss kürzer sein.";
     "Nutzername muss länger sein.";
     "Dein Nutzername kann nicht 'Anonymous' sein.";
     "Nutzername muss aus den Zeichen a-z, A-Z, 0-9, _ und - bestehen.";
     "Konnte nicht erstellt werden."].
Proof.
  unfold failure_message.
  repeat match goal with
         | |- context [if ?b then _ else _] => destruct b
         end;
    repeat first [apply list_elem_of_here | apply list_elem_of_further].
Qed.

(** X10. Whatever the reason a failure response carries and whatever the
    template's identifiers are, the text shown is one of six fixed messages:
    the reason string itself is never displayed.  The first case of the switch
    wins: the duplicate-username identifier always selects the
    duplicate-username message, even if a later case has the same
    identifier. *)
Theorem failure_text_is_one_of_six
    (tpl : Template) (env : Browser) (data : Response) (p : Page)
    (Hfail : ToBoolean (success data) = false) :
  let text := messageText (exec (addUserSuccess tpl env data) p) in
  text ∈ ["Nutzername wird bereits verwendet.";
          "Nutzername muss kürzer sein.";
          "Nutzername muss länger sein.";
          "Dein Nutzername kann nicht 'Anonymous' sein.";
          "Nutzername muss aus den Zeichen a-z, A-Z, 0-9, _ und - bestehen.";
          "Konnte nicht erstellt werden."]
  ∧ (reason data = JString (AlreadyExistsError_identifier tpl) →
     text = "Nutzername wird bereits verwendet.").
Proof.
  cbn zeta. rewrite addUserSuccess_failure by done. cbn [messageText].
  split; [apply failure_message_cases |].
  intros ->. unfold failure_message, strict_equals_string.
  by rewrite String.eqb_refl.
Qed.

Lemma failure_text_is_one_of_six_witness :
  messageText
    (exec (addUserSuccess
             {| url_register := "/register";
                url_add_user := "/api/add_user";
                FIELD_CSRF_TOKEN_HEADER := "X-CSRF-TOKEN";
                FIELD_CSRF_TOKEN := "csrf_token";
                FIELD_USERNAME := "username";
                FIELD_PERMISSION_GROUP := "permission_group";
                FIELD_SETTINGS := "settings";
                AlreadyExistsError_identifier := "Conflict";
                UsernameTooLong_identifier := "Conflict";
                UsernameTooShort_identifier := "UsernameTooShort";
                CannotBeNamedAnonymous_identifier := "ReservedName";
                UsernameInvalidCharacters_identifier := "InvalidCharacters" |}
             demo_browser
             {| success := JNull; reason := JString "Conflict";
                slot := JUndefined |})
       demo_page)
  = "Nutzername wird bereits verwendet.".
Proof.
  refine (proj2 (failure_text_is_one_of_six _ demo_browser
            {| success := JNull; reason := JString "Conflict";
               slot := JUndefined |} demo_page _) _).
  - reflexivity.
  - reflexivity.
Defined.

(** X11. A successful response that lacks the slot field still stores a
    link: the text [undefined] stands where the token would, and [null] does
    for a null slot. *)
Theorem success_without_slot_stores_undefined
    (tpl : Template) (env : Browser) (data : Response) (p : Page)
    (Hok : ToBoolean (success data) = true) :
  (slot data = JUndefined →
   addUserMessageBoxLink (exec (addUserSuccess tpl env data) p)
   = "https://" +:+ location_host env +:+ url_register tpl
       +:+ "?user_slot=undefined")
  ∧ (slot data = JNull →
     addUserMessageBoxLink (exec (addUserSuccess tpl env data) p)
     = "https://" +:+ location_host env +:+ url_register tpl
         +:+ "?user_slot=null").
Proof.
  rewrite addUserSuccess_success by done. cbn [addUserMessageBoxLink].
  unfold register_literal.
  split; intros ->; cbn [ToString]; by rewrite !string_app_assoc.
Qed.

Lemma success_without_slot_stores_undefined_witness :
  addUserMessageBoxLink
    (exec (addUserSuccess demo_template demo_browser
             {| success := JBool true; reason := JUndefined;
                slot := JUndefined |}) demo_page)
  = "https://panel.example.org/register?user_slot=undefined".
Proof.
  refine (proj1 (success_without_slot_stores_undefined
            demo_template demo_browser
            {| success := JBool true; reason := JUndefined;
               slot := JUndefined |} demo_page _) _).
  - reflexivity.
  - reflexivity.
Defined.

(** ** The status text between submit and response *)

Lemma string_length_app (a b : string) :
  String.length (a +:+ b) = (String.length a + String.length b)%nat.
Proof.
  induction a as [| x a IH]; [done |].
  change (S (String.length (a +:+ b)) = S (String.length a + String.length b)).
  by rewrite IH.
Qed.

Lemma was_added_is_not_placeholder (u : string) : u +:+ " was added." ≠ "...".
Proof.
  intros H. apply (f_equal String.length) in H.
  rewrite string_length_app in H. cbn in H. lia.
Qed.

Lemma failure_message_is_not_placeholder (tpl : Template) (r : JsValue) :
  failure_message tpl r ≠ "...".
Proof.
  pose proof (failure_message_cases tpl r) as H.
  repeat (apply elem_of_cons in H as [-> | H]; [discriminate |]).
  by apply elem_of_nil in H.
Qed.

Lemma run_copies_messageText (tpl : Template) (env : Browser)
    (copies : list Event) (p : Page) :
  Forall (λ ev, is_copy ev = true) copies →
  messageText (exec (run tpl env copies) p) = messageText p.
Proof.
  intros H. revert p. induction H as [| ev evs Hev _ IH]; intros p; [done |].
  rewrite run_cons, IH. by destruct ev.
Qed.

(** X12. What the status text shows follows the last event other than a
    copy: after a run whose last such event is a submit it reads ["..."], and
    after one whose last such event is a response it does not, whichever
    branch the response took, and whether or not the answer to another submit
    is still outstanding. *)
Theorem placeholder_shown_until_response
    (tpl : Template) (env : Browser) (p : Page)
    (before copies : list Event) (ev : Event)
    (Hcopies : Forall (λ ev, is_copy ev = true) copies) :
  let q := exec (run tpl env (before ++ ev :: copies)) p in
  (is_submit ev = true → messageText q = "...")
  ∧ (is_respond ev = true → messageText q ≠ "...").
Proof.
  cbn zeta. rewrite run_app, run_cons, run_copies_messageText by done.
  destruct ev as [form | data |]; cbn [is_submit is_respond handle].
  - split; [| done]. intros _. by rewrite addUserButton_submit_exec.
  - split; [done |]. intros _.
    destruct (ToBoolean (success data)) eqn:Hs.
    + rewrite addUserSuccess_success by done. cbn [messageText].
      apply was_added_is_not_placeholder.
    + rewrite addUserSuccess_failure by done. cbn [messageText].
      apply failure_message_is_not_placeholder.
  - done.
Qed.

Lemma placeholder_shown_until_response_witness :
  messageText
    (exec (run demo_template demo_browser
             ([Submit demo_form; Respond demo_success]
              ++ Submit demo_form :: [CopyLink; CopyLink]))
       demo_page)
  = "...".
Proof.
  refine (proj1 (placeholder_shown_until_response demo_template demo_browser
            demo_page [Submit demo_form; Respond demo_success]
            [CopyLink; CopyLink] (Submit demo_form) _) _).
  - repeat constructor.
  - reflexivity.
Defined.

(** ** The username inside the request body *)

Lemma read_json_string_escape (c : ascii) (t : string) :
  read_json_string (json_escape c +:+ t) = prepend c (read_json_string t).
Proof. destruct c as [[] [] [] [] [] [] [] []]; reflexivity. Qed.

Lemma read_json_string_escaped (s rest : string) :
  read_json_string (json_escape_all s +:+ String "034" rest) = Some (s, rest).
Proof.
  induction s as [| c s IH]; [reflexivity |].
  cbn [json_escape_all].
  by rewrite string_app_assoc, read_json_string_escape, IH.
Qed.

Lemma string_app_inj_l (a b c : string) : a +:+ b = a +:+ c → b = c.
Proof.
  induction a as [| x a IH]; [done |].
  intros H. apply IH. by injection H.
Qed.

Lemma json_member_number (k : string) (n : JsNumber) :
  ∃ t, json_member (k, JNumber n) = Some (json_quote k +:+ ":" +:+ t).
Proof. destruct n; by eexists. Qed.

Lemma request_body_shape (tpl : Template) (env : Browser) (form : Form) :
  NoDup (body_keys tpl) →
  ∃ R, body (request_of_form tpl env form)
       = ("{" +:+ json_quote (FIELD_USERNAME tpl) +:+ ":")
           +:+ String "034"
                 (json_escape_all (username_value form) +:+ String "034" R).
Proof.
  intros Hkeys. unfold request_of_form, add_user_request. cbn [body].
  rewrite object_literal_distinct3 by done.
  unfold JSON_stringify. cbn [omap list_omap value_of_lastUsername].
  destruct (json_member_number (FIELD_PERMISSION_GROUP tpl)
              (Number env (pgroup_value form))) as (t2 & ->).
  destruct (json_member_number (FIELD_SETTINGS tpl)
              (computeSettingsValue (settingsValues env)
                 (settings_children form))) as (t3 & ->).
  cbn [json_member json_value fst snd join_comma].
  unfold json_quote at 2, double_quote.
  eexists. rewrite !string_app_assoc. cbn [String.append]. reflexivity.
Qed.

(** X13. The request body determines the submitted username: two submits
    rendered from the same template whose bodies are the same text carry the
    same username, whatever quotes, backslashes or control characters the
    usernames contain. *)
Theorem request_body_determines_username
    (tpl : Template) (env1 env2 : Browser) (form1 form2 : Form)
    (Hkeys : NoDup (body_keys tpl))
    (Hbody : body (request_of_form tpl env1 form1)
             = body (request_of_form tpl env2 form2)) :
  username_value form1 = username_value form2.
Proof.
  destruct (request_body_shape tpl env1 form1 Hkeys) as (R1 & H1).
  destruct (request_body_shape tpl env2 form2 Hkeys) as (R2 & H2).
  rewrite H1, H2 in Hbody. apply string_app_inj_l in Hbody.
  injection Hbody as Hbody.
  apply (f_equal read_json_string) in Hbody.
  rewrite !read_json_string_escaped in Hbody.
  by injection Hbody.
Qed.

Lemma request_body_determines_username_witness :
  username_value demo_form
  = username_value
      {| username_value := "alice"; pgroup_value := "2";
         settings_children :=
           [mkControl "edit_members" true; mkControl "create_members" true] |}.
Proof.
  apply (request_body_determines_username demo_template demo_browser
           demo_browser demo_form
           {| username_value := "alice"; pgroup_value := "2";
              settings_children :=
                [mkControl "edit_members" true;
                 mkControl "create_members" true] |}).
  - apply (bool_decide_unpack _). vm_compute. exact I.
  - vm_compute. reflexivity.
Defined.

(** X14. When the permission-group text has no numeric value, the request
    is still sent, with [null] in the permission-group field; the settings
    field always holds an integer of the signed 32-bit range. *)
Theorem non_numeric_permission_group_sent_as_null
    (tpl : Template) (env : Browser) (form : Form)
    (Hkeys : NoDup (body_keys tpl))
    (Hnan : Number env (pgroup_value form) = JNaN) :
  ∃ m, computeSettingsValue (settingsValues env) (settings_children form)
       = JInt m
       ∧ - 2 ^ 31 ≤ m < 2 ^ 31
       ∧ body (request_of_form tpl env form)
         = "{" +:+ json_quote (FIELD_USERNAME tpl) +:+ ":"
               +:+ json_quote (username_value form) +:+ ","
               +:+ json_quote (FIELD_PERMISSION_GROUP tpl) +:+ ":null,"
               +:+ json_quote (FIELD_SETTINGS tpl) +:+ ":"
               +:+ pretty m +:+ "}".
Proof.
  destruct (mask_value (settingsValues env) (settings_children form))
    as (m & Hm & _ & Hr).
  exists m. split; [done |]. split; [done |].
  unfold request_of_form, add_user_request. cbn [body].
  rewrite object_literal_distinct3 by done.
  rewrite Hnan, Hm. unfold JSON_stringify.
  cbn [omap list_omap value_of_lastUsername json_member json_value fst snd
       join_comma].
  rewrite !string_app_assoc. reflexivity.
Qed.

Lemma non_numeric_permission_group_sent_as_null_witness :
  body (request_of_form demo_template demo_browser
          {| username_value := "alice"; pgroup_value := "admin";
             settings_children := settings_children demo_form |})
  = dq "{'username':'alice','permission_group':null,'settings':5}".
Proof.
  destruct (non_numeric_permission_group_sent_as_null
              demo_template demo_browser
              {| username_value := "alice"; pgroup_value := "admin";
                 settings_children := settings_children demo_form |})
    as (m & Hm & _ & ->).
  - apply (bool_decide_unpack _). vm_compute. exact I.
  - reflexivity.
  - injection Hm as <-. vm_compute. reflexivity.
Defined.

(** ** The auto-merge check *)

Lemma startsWith_prefix (s pre : string) :
  AutoMerge.startsWith s pre = true ↔ ∃ rest, s = pre +:+ rest.
Proof.
  revert s. induction pre as [| c pre IH]; intros s.
  - split; [intros _; by exists s | done].
  - destruct s as [| d s]; cbn [AutoMerge.startsWith].
    + split; [done |]. by intros (rest & H).
    + rewrite andb_true_iff, IH, Ascii.eqb_eq. split.
      * intros (-> & rest & ->). by exists rest.
      * intros (rest & H). injection H as -> ->. eauto.
Qed.

(** X15. The check passes only for a pull request that changes no file
    whose path begins with [.github/], whose base branch the workflow's [==]
    takes for [dev] and whose author it takes for [LeanderKafemann].  A pull
    request that changes any file under [.github/] fails it whoever opened it,
    and so does a run without a pull request in its payload. *)
Theorem auto_merge_check_outcome
    (expr_eq : string → string → bool) (pr : AutoMerge.PullRequest)
    (Hff : expr_eq "false" "false" = true)
    (Htf : expr_eq "true" "false" = false) :
  (AutoMerge.job expr_eq (Some pr) = AutoMerge.Passed
   ↔ (∀ file rest, file ∈ AutoMerge.files pr →
        AutoMerge.filename file ≠ ".github/" +:+ rest)
     ∧ expr_eq (AutoMerge.base_ref pr) "dev" = true
     ∧ expr_eq (AutoMerge.user_login pr) "LeanderKafemann" = true)
  ∧ AutoMerge.job expr_eq None = AutoMerge.Failed.
Proof.
  split; [| reflexivity].
  unfold AutoMerge.job, AutoMerge.exit_step_runs, AutoMerge.should_merge.
  destruct (AutoMerge.modifiesGithubDir (AutoMerge.files pr)) eqn:Hmod.
  - rewrite Hff. cbn [orb]. split; [done |]. intros (Hnone & _).
    unfold AutoMerge.modifiesGithubDir in Hmod.
    apply existsb_exists in Hmod as (file & Hin & Hpre).
    apply startsWith_prefix in Hpre as (rest & Hrest).
    apply list_elem_of_In in Hin. by destruct (Hnone file rest).
  - rewrite Htf. cbn [orb].
    assert (∀ file rest, file ∈ AutoMerge.files pr →
              AutoMerge.filename file ≠ ".github/" +:+ rest) as Hnone.
    { intros file rest Hin Hname.
      assert (AutoMerge.modifiesGithubDir (AutoMerge.files pr) = true) as Ht;
        [| congruence].
      apply existsb_exists. exists file. split; [by apply list_elem_of_In |].
      apply startsWith_prefix. by exists rest. }
    destruct (expr_eq (AutoMerge.base_ref pr) "dev"),
             (expr_eq (AutoMerge.user_login pr) "LeanderKafemann");
      cbn; split; try done; intros (_ & ? & ?); done.
Qed.

Lemma auto_merge_check_outcome_witness :
  AutoMerge.job AutoMerge.eq_ignore_case
    (Some {| AutoMerge.base_ref := "dev";
             AutoMerge.user_login := "LeanderKafemann";
             AutoMerge.files :=
               [AutoMerge.mkChangedFile "api/templates/addUserForm.js";
                AutoMerge.mkChangedFile "docs/.github/notes.md"] |})
  = AutoMerge.Passed.
Proof.
  refine (proj2 (proj1 (auto_merge_check_outcome AutoMerge.eq_ignore_case
            {| AutoMerge.base_ref := "dev";
               AutoMerge.user_login := "LeanderKafemann";
               AutoMerge.files :=
                 [AutoMerge.mkChangedFile "api/templates/addUserForm.js";
                  AutoMerge.mkChangedFile "docs/.github/notes.md"] |} _ _)) _).
  - reflexivity.
  - reflexivity.
  - split; [| split; reflexivity].
    intros file rest Hin Hname.
    apply elem_of_cons in Hin as [-> | Hin]; [discriminate |].
    apply elem_of_cons in Hin as [-> | Hin]; [discriminate |].
    by apply elem_of_nil in Hin.
Defined.

(** ** The text of the request body *)

Lemma json_escape_plain (c : ascii) :
  plain_char c = true → json_escape c = String c EmptyString.
Proof.
  destruct c as [[] [] [] [] [] [] [] []]; intros H;
    first [reflexivity | by vm_compute in H].
Qed.

Lemma json_escape_all_plain (s : string) :
  plain_text s = true → json_escape_all s = s.
Proof.
  induction s as [| c s IH]; [done |].
  cbn [plain_text json_escape_all]. intros H.
  apply andb_true_iff in H as [Hc Hs].
  by rewrite json_escape_plain, IH.
Qed.

Lemma json_quote_reads_back (s rest : string) :
  ∃ e, json_quote s +:+ rest = String "034" (e +:+ String "034" rest)
       ∧ read_json_string (e +:+ String "034" rest) = Some (s, rest).
Proof.
  exists (json_escape_all s). split; [| apply read_json_string_escaped].
  unfold json_quote, double_quote. by rewrite !string_app_assoc.
Qed.

Lemma request_body_text (tpl : Template) (env : Browser) (form : Form)
    (m : Z) :
  NoDup (body_keys tpl) →
  computeSettingsValue (settingsValues env) (settings_children form) = JInt m →
  body (request_of_form tpl env form)
  = "{" +:+ json_quote (FIELD_USERNAME tpl) +:+ ":"
        +:+ json_quote (username_value form) +:+ ","
        +:+ json_quote (FIELD_PERMISSION_GROUP tpl) +:+ ":"
        +:+ json_number_text (Number env (pgroup_value form)) +:+ ","
        +:+ json_quote (FIELD_SETTINGS tpl) +:+ ":" +:+ pretty m +:+ "}".
Proof.
  intros Hkeys Hm. unfold request_of_form, add_user_request. cbn [body].
  rewrite object_literal_distinct3 by done. rewrite Hm.
  unfold JSON_stringify.
  destruct (Number env (pgroup_value form)) as [| z];
    cbn [omap list_omap value_of_lastUsername json_member json_value fst snd
         join_comma json_number_text];
    by rewrite !string_app_assoc.
Qed.

(** C4. The body of the request a submit sends is the text of a JSON object
    with exactly three members, in the order of the literal: the username
    field with the username captured from the input as a JSON string, the
    permission-group field with the numeric conversion of the
    permission-group input's text ([null] when that is [NaN]), and the
    settings field with the computed mask.  A JSON string is the text between
    double quotes that reads back as the original: plain characters are
    copied, and the double quote, the backslash and the control characters
    are escaped as [JSON.stringify] escapes them.  For username [alice],
    permission group [2] and enabled bits [1] and [4] the body is
    [{"username":"alice","permission_group":2,"settings":5}].  The field names
    are taken to be pairwise distinct ordinary property names, and the
    converted permission group an integer below [10^21] in magnitude or
    [NaN]. *)
Theorem submit_request_body
    (tpl : Template) (env : Browser) (form : Form) (p : Page)
    (Hkeys : NoDup (body_keys tpl))
    (Hnames : Forall ordinary_property_name (body_keys tpl))
    (Hnum : prints_in_full (Number env (pgroup_value form))) :
  ∃ req m,
    last (journal (exec (addUserButton_submit tpl env form) p))
      = Some (Fetch req)
    ∧ computeSettingsValue (settingsValues env) (settings_children form)
      = JInt m
    ∧ body req
      = "{" +:+ json_quote (FIELD_USERNAME tpl) +:+ ":"
            +:+ json_quote (username_value form) +:+ ","
            +:+ json_quote (FIELD_PERMISSION_GROUP tpl) +:+ ":"
            +:+ match Number env (pgroup_value form) with
                | JNaN => "null"
                | JInt z => pretty z
                end +:+ ","
            +:+ json_quote (FIELD_SETTINGS tpl) +:+ ":" +:+ pretty m +:+ "}"
    ∧ (∀ s rest,
         ∃ e, json_quote s +:+ rest = String "034" (e +:+ String "034" rest)
              ∧ read_json_string (e +:+ String "034" rest) = Some (s, rest))
    ∧ (∀ s, plain_text s = true →
            json_quote s = String "034" (s +:+ String "034" EmptyString))
    ∧ json_quote
        (String "008" (String "009" (String "010" (String "012"
           (String "013" (String "034" (String "092" (String "000"
              (String "031" EmptyString)))))))))
      = dq "'\b\t\n\f\r\'\\\u0000\u001f'"
    ∧ (body_keys tpl = ["username"; "permission_group"; "settings"] →
       username_value form = "alice" →
       Number env (pgroup_value form) = JInt 2 →
       enabled_bits (settingsValues env) (settings_children form) ≡ₚ [1; 4] →
       body req
       = dq "{'username':'alice','permission_group':2,'settings':5}").
Proof.
  destruct (mask_value (settingsValues env) (settings_children form))
    as (m & Hm & _ & _).
  exists (request_of_form tpl env form), m.
  assert (body (request_of_form tpl env form)
          = "{" +:+ json_quote (FIELD_USERNAME tpl) +:+ ":"
                +:+ json_quote (username_value form) +:+ ","
                +:+ json_quote (FIELD_PERMISSION_GROUP tpl) +:+ ":"
                +:+ json_number_text (Number env (pgroup_value form)) +:+ ","
                +:+ json_quote (FIELD_SETTINGS tpl) +:+ ":" +:+ pretty m
                +:+ "}") as Hbody by by apply request_body_text.
  split.
  { rewrite addUserButton_submit_exec. cbn zeta. cbn [journal].
    by rewrite last_app. }
  split; [exact Hm |]. split; [exact Hbody |].
  split; [apply json_quote_reads_back |]. split.
  { intros s Hs. unfold json_quote, double_quote.
    by rewrite json_escape_all_plain. }
  split; [vm_compute; reflexivity |].
  intros Hk Hu Hn Hbits. rewrite Hbody.
  unfold body_keys in Hk. injection Hk as -> -> ->. rewrite Hu, Hn.
  assert (m = 5) as ->.
  { rewrite (computeSettingsValue_of_bits _ _ [1; 4]) in Hm; [| done |].
    - by injection Hm as <-.
    - repeat constructor; unfold int32; lia. }
  vm_compute. reflexivity.
Qed.

Lemma submit_request_body_witness :
  ∃ req,
    last (journal
            (exec (addUserButton_submit demo_template demo_browser
                     {| username_value := dq "al'ice\";
                        pgroup_value := "2";
                        settings_children := settings_children demo_form |})
               demo_page)) = Some (Fetch req)
    ∧ body req
      = dq "{'username':'al\'ice\\','permission_group':2,'settings':5}".
Proof.
  destruct (submit_request_body demo_template demo_browser
              {| username_value := dq "al'ice\";
                 pgroup_value := "2";
                 settings_children := settings_children demo_form |}
              demo_page)
    as (req & m & Hlast & Hm & Hbody & _).
  - apply (bool_decide_unpack _). vm_compute. exact I.
  - unfold body_keys. cbn.
    do 3 (constructor; [split; [discriminate | reflexivity] |]).
    constructor.
  - vm_compute. reflexivity.
  - exists req. split; [exact Hlast |].
    rewrite Hbody. injection Hm as <-. vm_compute. reflexivity.
Defined.
